(** * The calculator engines of Quiz04 and Quiz06

    A shallow embedding of the [Calculator] class of
    [Quiz04/calculator.py] and of the [Calculator] and
    [EngineeringCalculator] classes of [Quiz06/engineering_calculator.py],
    together with the two Python built-ins the engines lean on:
    [float(str)] and the format specification [.12g].

    Python floats are IEEE 754 binary64 numbers and are modelled by Rocq's
    primitive [float]; Python [str] values are modelled by [string] (the
    UTF-8 bytes of the text).  The engines only ever build their texts from
    ASCII characters, and the model of [float(str)] reads ASCII digits and
    ASCII white space only.

    No method of the basic engines can raise: [float(str)] is guarded by
    [except ValueError], the division by [b == 0.0], and float [+ - * /]
    overflow to infinities.  They are therefore total functions on the
    state.  The scientific methods of Quiz06 call the [math] module, which
    may raise, and return a [result]. *)

From Stdlib Require Import ZArith Bool List Lia Ascii String.
From Stdlib Require Import DecimalString.
From Stdlib Require Import Floats.
Import ListNotations.

Local Open Scope string_scope.
Local Open Scope Z_scope.

(** ** Text helpers *)

Module Text.

Definition is_digit (c : ascii) : bool :=
  let n := nat_of_ascii c in (48 <=? n)%nat && (n <=? 57)%nat.

(** [Py_ISSPACE]: space, \t, \n, \v, \f, \r. *)
Definition is_space (c : ascii) : bool :=
  let n := nat_of_ascii c in
  (n =? 32)%nat || ((9 <=? n)%nat && (n <=? 13)%nat).

(** ASCII lower-casing, used for the case-insensitive [inf]/[nan] words. *)
Definition lower (c : ascii) : ascii :=
  let n := nat_of_ascii c in
  if (65 <=? n)%nat && (n <=? 90)%nat then ascii_of_nat (n + 32) else c.

Fixpoint lower_str (s : string) : string :=
  match s with
  | EmptyString => EmptyString
  | String c r => String (lower c) (lower_str r)
  end.

(** [c in s] for a one-character needle. *)
Fixpoint contains (c : ascii) (s : string) : bool :=
  match s with
  | EmptyString => false
  | String x r => Ascii.eqb x c || contains c r
  end.

(** Number of occurrences of [c] in [s]. *)
Fixpoint count (c : ascii) (s : string) : nat :=
  match s with
  | EmptyString => O
  | String x r => ((if Ascii.eqb x c then 1 else 0) + count c r)%nat
  end.

(** [s.startswith(c)] for a one-character prefix. *)
Definition startswith (c : ascii) (s : string) : bool :=
  match s with
  | String x _ => Ascii.eqb x c
  | EmptyString => false
  end.

(** Whether [s] begins with a decimal digit. *)
Definition startswith_digit (s : string) : bool :=
  match s with
  | String x _ => is_digit x
  | EmptyString => false
  end.

(** [s[1:]] *)
Definition tail (s : string) : string :=
  match s with
  | String _ r => r
  | EmptyString => EmptyString
  end.

(** [a or b] on strings: the empty string is falsy. *)
Definition or_else (a b : string) : string :=
  match a with
  | EmptyString => b
  | _ => a
  end.

(** Longest prefix of decimal digits, and what follows it. *)
Fixpoint span_digits (s : string) : string * string :=
  match s with
  | String c r =>
      if is_digit c then let (d, t) := span_digits r in (String c d, t)
      else (EmptyString, s)
  | EmptyString => (EmptyString, EmptyString)
  end.

Fixpoint lstrip (s : string) : string :=
  match s with
  | String c r => if is_space c then lstrip r else s
  | EmptyString => EmptyString
  end.

Fixpoint rev_str (s acc : string) : string :=
  match s with
  | String c r => rev_str r (String c acc)
  | EmptyString => acc
  end.

Definition strip (s : string) : string :=
  rev_str (lstrip (rev_str (lstrip s) "")) "".

Fixpoint rstrip_char (c : ascii) (s : string) : string :=
  match s with
  | String x r =>
      match rstrip_char c r with
      | EmptyString => if Ascii.eqb x c then EmptyString else String x EmptyString
      | r' => String x r'
      end
  | EmptyString => EmptyString
  end.

Fixpoint repeat_char (c : ascii) (n : nat) : string :=
  match n with
  | O => EmptyString
  | S k => String c (repeat_char c k)
  end.

(** Value of a string of decimal digits (0 for the empty string). *)
Fixpoint digits_value (s : string) (acc : Z) : Z :=
  match s with
  | String c r => digits_value r (10 * acc + (Z.of_nat (nat_of_ascii c) - 48))
  | EmptyString => acc
  end.

(** Decimal digits of a natural number, without sign or padding. *)
Definition of_N (n : N) : string := NilZero.string_of_uint (N.to_uint n).

End Text.

(** ** [float(str)]

    CPython strips ASCII white space, validates the PEP 515 underscores,
    then reads [[+-]?(digits[.digits*]|.digits)([eE][+-]?digits)?] with
    David Gay's correctly rounded [strtod] (round to nearest, ties to even,
    overflow to infinity), and falls back on the words [inf], [infinity] and
    [nan].  [None] stands for [ValueError]. *)

Module PyFloat.

Import Text.

(** Underscores may only stand between two digits; they are then dropped. *)
Fixpoint drop_underscores (prev : ascii) (s : string) : option string :=
  match s with
  | EmptyString => if Ascii.eqb prev "_" then None else Some EmptyString
  | String c r =>
      if Ascii.eqb c "_" then
        if is_digit prev then drop_underscores c r else None
      else if Ascii.eqb prev "_" && negb (is_digit c) then None
      else option_map (String c) (drop_underscores c r)
  end.

Definition split_sign (s : string) : bool * string :=
  match s with
  | String "-" r => (true, r)
  | String "+" r => (false, r)
  | _ => (false, s)
  end.

(** The decimal exponent written after the mantissa: [Some 0] when there is
    none, [None] when the tail is not a well-formed exponent. *)
Definition parse_exponent (s : string) : option Z :=
  match s with
  | EmptyString => Some 0
  | String c r =>
      if Ascii.eqb (lower c) "e" then
        let (neg, r1) := split_sign r in
        match span_digits r1 with
        | (EmptyString, _) => None
        | (ds, EmptyString) =>
            let e := digits_value ds 0 in Some (if neg then - e else e)
        | _ => None
        end
      else None
  end.

(** A decimal literal as sign, integer mantissa and power of ten. *)
Definition parse_decimal (s : string) : option (bool * Z * Z) :=
  let (neg, r0) := split_sign s in
  let (ip, r1) := span_digits r0 in
  let (fp, r2) :=
    match r1 with
    | String "." r => span_digits r
    | _ => (EmptyString, r1)
    end in
  match ip ++ fp with
  | EmptyString => None
  | ds =>
      match parse_exponent r2 with
      | Some e => Some (neg, digits_value ds 0, e - Z.of_nat (String.length fp))
      | None => None
      end
  end.

(** The nearest binary64 number to [m * 10^e], ties to even. *)
Definition round_decimal (neg : bool) (m e : Z) : spec_float :=
  if m =? 0 then S754_zero neg
  else if 0 <=? e then
    binary_normalize prec emax (if neg then - (m * 10 ^ e) else m * 10 ^ e) 0 neg
  else
    let d := 10 ^ (- e) in
    let k := Z.max 0 (Z.log2 d + 64 - Z.log2 m) in
    let (q, r) := Z.div_eucl (Z.shiftl m k) d in
    binary_round_aux prec emax neg q (- k) (new_location d r).

Definition parse_inf_or_nan (s : string) : option float :=
  let (neg, r) := split_sign s in
  let w := lower_str r in
  if String.eqb w "inf" || String.eqb w "infinity" then
    Some (if neg then neg_infinity else infinity)
  else if String.eqb w "nan" then Some nan
  else None.

Definition of_string (s : string) : option float :=
  match drop_underscores Ascii.zero (strip s) with
  | None => None
  | Some t =>
      match parse_decimal t with
      | Some (neg, m, e) => Some (SF2Prim (round_decimal neg m e))
      | None => parse_inf_or_nan t
      end
  end.

(** ** [format(x, ".12g")]

    CPython asks [dtoa] (mode 2) for the 12 significant digits of the exact
    binary value, rounded to nearest with ties to even and stripped of
    trailing zeros, and for the position [decpt] of the decimal point; it
    then lays them out in fixed notation when [-4 < decpt <= 12] and in
    exponent notation otherwise. *)

(** The exact value of a finite non-zero float, as [i / 10^j]. *)
Definition exact_decimal (m : positive) (e : Z) : Z * Z :=
  if 0 <=? e then (Z.pos m * 2 ^ e, 0) else (Z.pos m * 5 ^ (- e), - e).

(** [ndigits] significant digits (trailing zeros stripped) and [decpt]. *)
Definition dtoa (ndigits : Z) (m : positive) (e : Z) : string * Z :=
  let (i, j) := exact_decimal m e in
  let nd := Z.of_nat (String.length (of_N (Z.to_N i))) in
  let decpt := nd - j in
  if nd <=? ndigits then (rstrip_char "0" (of_N (Z.to_N i)), decpt)
  else
    let p := 10 ^ (nd - ndigits) in
    let (q, r) := Z.div_eucl i p in
    let q' :=
      match 2 * r ?= p with
      | Lt => q
      | Eq => if Z.even q then q else q + 1
      | Gt => q + 1
      end in
    if q' =? 10 ^ ndigits then ("1", decpt + 1)
    else (rstrip_char "0" (of_N (Z.to_N q')), decpt).

(** ["%+.02d"] *)
Definition exponent_text (x : Z) : string :=
  let a := of_N (Z.to_N (Z.abs x)) in
  String (if x <? 0 then "-"%char else "+"%char)
         (if (String.length a <? 2)%nat then String "0" a else a).

Definition with_point (ip fp : string) : string :=
  match fp with
  | EmptyString => ip
  | _ => ip ++ "." ++ fp
  end.

Definition layout_g (precision : Z) (ds : string) (decpt : Z) : string :=
  let n := Z.of_nat (String.length ds) in
  if (decpt <=? -4) || (precision <? decpt) then
    with_point (substring 0 1 ds) (substring 1 (String.length ds - 1) ds)
      ++ "e" ++ exponent_text (decpt - 1)
  else if decpt <=? 0 then
    "0." ++ repeat_char "0" (Z.to_nat (- decpt)) ++ ds
  else if n <=? decpt then
    ds ++ repeat_char "0" (Z.to_nat (decpt - n))
  else
    with_point (substring 0 (Z.to_nat decpt) ds)
               (substring (Z.to_nat decpt) (String.length ds - Z.to_nat decpt) ds).

Definition format_12g (x : float) : string :=
  match Prim2SF x with
  | S754_nan => "nan"
  | S754_infinity s => if s then "-inf" else "inf"
  | S754_zero s => if s then "-0" else "0"
  | S754_finite s m e =>
      let (ds, decpt) := dtoa 12 m e in
      (if s then "-" else "") ++ layout_g 12 ds decpt
  end.

End PyFloat.


(** ** What both [Calculator] classes share

    The instance attributes [acc], [current], [pending_op] and
    [just_evaluated], and the text last handed to the [update_display]
    callback (the user interface passes [set_display], which puts the text
    on the display widget). *)

Record calc : Type := mk_calc {
  acc : float;
  current : string;
  pending_op : option string;
  just_evaluated : bool;
  display : string
}.

Definition set_acc (v : float) (self : calc) : calc :=
  mk_calc v (current self) (pending_op self) (just_evaluated self) (display self).

Definition set_current (t : string) (self : calc) : calc :=
  mk_calc (acc self) t (pending_op self) (just_evaluated self) (display self).

Definition set_pending_op (o : option string) (self : calc) : calc :=
  mk_calc (acc self) (current self) o (just_evaluated self) (display self).

Definition set_just_evaluated (b : bool) (self : calc) : calc :=
  mk_calc (acc self) (current self) (pending_op self) b (display self).

Definition update_display (t : string) (self : calc) : calc :=
  mk_calc (acc self) (current self) (pending_op self) (just_evaluated self) t.

(** The four operator symbols, as the buttons spell them. *)
Definition PLUS : string := "+".
Definition MINUS : string := "−".
Definition TIMES : string := "×".
Definition DIVIDE : string := "÷".

(** [x is None] *)
Definition is_None {A : Type} (x : option A) : bool :=
  match x with
  | None => true
  | Some _ => false
  end.

(** [label.isdigit()] on ASCII labels. *)
Definition isdigit (label : string) : bool :=
  match label with
  | EmptyString => false
  | _ => String.eqb (fst (Text.span_digits label)) label
  end.

(** The state of a display widget created with the text ["0"], before the
    engine is attached to it. *)
Definition blank : calc := mk_calc 0 "" None false "0".

(** ** Quiz04: [calculator.py] *)

Module Quiz04.

Definition reset (self : calc) : calc :=
  let self := set_acc 0 self in
  let self := set_current "0" self in
  let self := set_pending_op None self in
  let self := set_just_evaluated false self in
  update_display (current self) self.

Definition __init__ : calc := reset blank.

Definition _current_value (self : calc) : float :=
  match PyFloat.of_string (current self) with
  | Some v => v
  | None => 0
  end.

Definition _set_current_from_value (val : float) (self : calc) : calc :=
  let text := PyFloat.format_12g val in
  let self := set_current text self in
  update_display (current self) self.

Definition input_digit (d : string) (self : calc) : calc :=
  let self :=
    if just_evaluated self && is_None (pending_op self)
    then set_just_evaluated false (set_current "0" self)
    else self in
  let self :=
    if String.eqb (current self) "0" then set_current d self
    else set_current (current self ++ d) self in
  update_display (current self) self.

Definition input_dot (self : calc) : calc :=
  let self :=
    if just_evaluated self && is_None (pending_op self)
    then set_just_evaluated false (set_current "0" self)
    else self in
  if negb (Text.contains "." (current self)) then
    let self :=
      set_current (current self ++
                   match current self with EmptyString => "0." | _ => "." end)
                  self in
    update_display (current self) self
  else self.

Definition negative_positive (self : calc) : calc :=
  let self :=
    if Text.startswith "-" (current self)
    then set_current (Text.or_else (Text.tail (current self)) "0") self
    else if negb (String.eqb (current self) "0")
         then set_current ("-" ++ current self) self
         else self in
  update_display (current self) self.

Definition percent (self : calc) : calc :=
  let cur := _current_value self in
  let cur :=
    match pending_op self with
    | Some _ => let base := acc self in (base * (cur / 100))%float
    | None => (cur / 100)%float
    end in
  _set_current_from_value cur self.

(** Returns the status ([None], or [Some "error"]) and the new state. *)
Definition _apply_pending (self : calc) : option string * calc :=
  match pending_op self with
  | None => (None, self)
  | Some op =>
      let a := acc self in
      let b := _current_value self in
      let finish res := (None, _set_current_from_value res (set_acc res self)) in
      if String.eqb op PLUS then finish (a + b)%float
      else if String.eqb op MINUS then finish (a - b)%float
      else if String.eqb op TIMES then finish (a * b)%float
      else if String.eqb op DIVIDE then
        if (b =? 0)%float then
          let self := set_current "Error" self in
          let self := set_acc 0 self in
          let self := set_pending_op None self in
          let self := set_just_evaluated true self in
          (Some "error", update_display (current self) self)
        else finish (a / b)%float
      else (None, self)
  end.

Definition _press_operator (op_symbol : string) (self : calc) : calc :=
  if String.eqb (current self) "Error" then reset self
  else
    match pending_op self with
    | None =>
        let self := set_acc (_current_value self) self in
        let self := set_pending_op (Some op_symbol) self in
        let self := set_just_evaluated false self in
        set_current "0" self
    | Some _ =>
        let (status, self) := _apply_pending self in
        match status with
        | Some "error" => self
        | _ =>
            let self := set_pending_op (Some op_symbol) self in
            let self := set_current "0" self in
            set_just_evaluated false self
        end
    end.

Definition add := _press_operator PLUS.
Definition subtract := _press_operator MINUS.
Definition multiply := _press_operator TIMES.
Definition divide := _press_operator DIVIDE.

Definition equal (self : calc) : calc :=
  if String.eqb (current self) "Error" then reset self
  else
    match pending_op self with
    | None =>
        let self := _set_current_from_value (_current_value self) self in
        set_just_evaluated true self
    | Some _ =>
        let (status, self) := _apply_pending self in
        match status with
        | Some "error" => self
        | _ =>
            let self := set_pending_op None self in
            set_just_evaluated true self
        end
    end.

(** [CalculatorUI.on_button]: the engine call behind each button label. *)
Definition on_button (label : string) (c : calc) : calc :=
  if String.eqb label "AC" then reset c
  else if String.eqb label "±" then negative_positive c
  else if String.eqb label "%" then percent c
  else if String.eqb label PLUS then add c
  else if String.eqb label MINUS then subtract c
  else if String.eqb label TIMES then multiply c
  else if String.eqb label DIVIDE then divide c
  else if String.eqb label "=" then equal c
  else if String.eqb label "." then input_dot c
  else if isdigit label then input_digit label c
  else c.

(** A session: the buttons pressed, in order, on a fresh calculator. *)
Definition press (labels : list string) (c : calc) : calc :=
  fold_left (fun c l => on_button l c) labels c.

End Quiz04.

(** ** Quiz06: [engineering_calculator.py] *)

(** What a call into the [math] module can do besides returning. *)
Inductive exn : Type := ValueError | OverflowError.

Inductive result (A : Type) : Type :=
| Ok (a : A)
| Raise (e : exn).

Arguments Ok {A} a.
Arguments Raise {A} e.

(** The functions of the C library behind [math.sin] and the like are not
    part of the repository: the engine is verified for every behaviour they
    may have, exceptions included. *)
Class MathModule : Type := {
  math_sin : float -> result float;
  math_cos : float -> result float;
  math_tan : float -> result float;
  math_sinh : float -> result float;
  math_cosh : float -> result float;
  math_tanh : float -> result float
}.

Module Quiz06.

(** [math.pi], [math.radians] (a product with [pi / 180]) and
    [math.isfinite]. *)
Definition math_pi : float := 0x1.921fb54442d18p+1%float.
Definition math_radians (x : float) : float := (x * (math_pi / 180))%float.
Definition math_isfinite (x : float) : bool := is_finite x.

(** *** class [Calculator] *)

Definition reset (self : calc) : calc :=
  let self := set_acc 0 self in
  let self := set_current "0" self in
  let self := set_pending_op None self in
  let self := set_just_evaluated false self in
  update_display (current self) self.

Definition _current_value (self : calc) : float :=
  match PyFloat.of_string (current self) with
  | Some v => v
  | None => 0
  end.

Definition _set_current_from_value (val : float) (self : calc) : calc :=
  let text := if math_isfinite val then PyFloat.format_12g val else "Error" in
  let self := set_current text self in
  update_display (current self) self.

Definition input_digit (d : string) (self : calc) : calc :=
  let self :=
    if just_evaluated self && is_None (pending_op self)
    then set_just_evaluated false (set_current "0" self)
    else self in
  let self :=
    if String.eqb (current self) "0" then set_current d self
    else set_current (current self ++ d) self in
  update_display (current self) self.

Definition input_dot (self : calc) : calc :=
  let self :=
    if just_evaluated self && is_None (pending_op self)
    then set_just_evaluated false (set_current "0" self)
    else self in
  if negb (Text.contains "." (current self)) then
    let self :=
      set_current (current self ++
                   match current self with EmptyString => "0." | _ => "." end)
                  self in
    update_display (current self) self
  else self.

Definition negative_positive (self : calc) : calc :=
  let self :=
    if Text.startswith "-" (current self)
    then set_current (Text.or_else (Text.tail (current self)) "0") self
    else if negb (String.eqb (current self) "0")
         then set_current ("-" ++ current self) self
         else self in
  update_display (current self) self.

Definition percent (self : calc) : calc :=
  let cur := _current_value self in
  let cur :=
    match pending_op self with
    | Some _ => let base := acc self in (base * (cur / 100))%float
    | None => (cur / 100)%float
    end in
  _set_current_from_value cur self.

Definition _apply_pending (self : calc) : option string * calc :=
  match pending_op self with
  | None => (None, self)
  | Some op =>
      let a := acc self in
      let b := _current_value self in
      let finish res := (None, _set_current_from_value res (set_acc res self)) in
      if String.eqb op PLUS then finish (a + b)%float
      else if String.eqb op MINUS then finish (a - b)%float
      else if String.eqb op TIMES then finish (a * b)%float
      else if String.eqb op DIVIDE then
        if (b =? 0)%float then
          let self := set_current "Error" self in
          let self := set_acc 0 self in
          let self := set_pending_op None self in
          let self := set_just_evaluated true self in
          (Some "error", update_display (current self) self)
        else finish (a / b)%float
      else (None, self)
  end.

Definition _press_operator (op_symbol : string) (self : calc) : calc :=
  if String.eqb (current self) "Error" then reset self
  else
    match pending_op self with
    | None =>
        let self := set_acc (_current_value self) self in
        let self := set_pending_op (Some op_symbol) self in
        let self := set_just_evaluated false self in
        set_current "0" self
    | Some _ =>
        let (status, self) := _apply_pending self in
        match status with
        | Some "error" => self
        | _ =>
            let self := set_pending_op (Some op_symbol) self in
            let self := set_current "0" self in
            set_just_evaluated false self
        end
    end.

Definition add := _press_operator PLUS.
Definition subtract := _press_operator MINUS.
Definition multiply := _press_operator TIMES.
Definition divide := _press_operator DIVIDE.

Definition equal (self : calc) : calc :=
  if String.eqb (current self) "Error" then reset self
  else
    match pending_op self with
    | None =>
        let self := _set_current_from_value (_current_value self) self in
        set_just_evaluated true self
    | Some _ =>
        let (status, self) := _apply_pending self in
        match status with
        | Some "error" => self
        | _ =>
            let self := set_pending_op None self in
            set_just_evaluated true self
        end
    end.

(** *** class [EngineeringCalculator(Calculator)]

    The inherited attributes and the angle flag the subclass adds. *)

Record eng : Type := mk_eng {
  base : calc;
  is_degree_mode : bool
}.

(** An inherited method, run on the subclass instance. *)
Definition inherited (f : calc -> calc) (self : eng) : eng :=
  mk_eng (f (base self)) (is_degree_mode self).

Definition __init__ : eng := mk_eng (reset blank) true.

Definition _angle (self : eng) (x : float) : float :=
  if is_degree_mode self then math_radians x else x.

Definition insert_pi (self : eng) : eng :=
  inherited (fun c =>
    let c := set_current (PyFloat.format_12g math_pi) c in
    update_display (current c) c) self.

Definition square (self : eng) : eng :=
  let val := _current_value (base self) in
  inherited (_set_current_from_value (val * val)%float) self.

Definition cube (self : eng) : eng :=
  let val := _current_value (base self) in
  inherited (_set_current_from_value (val * val * val)%float) self.

Section Scientific.

Context {M : MathModule}.

Definition sin (self : eng) : result eng :=
  let x := _angle self (_current_value (base self)) in
  match math_sin x with
  | Ok r => Ok (inherited (_set_current_from_value r) self)
  | Raise e => Raise e
  end.

Definition cos (self : eng) : result eng :=
  let x := _angle self (_current_value (base self)) in
  match math_cos x with
  | Ok r => Ok (inherited (_set_current_from_value r) self)
  | Raise e => Raise e
  end.

(** [except Exception] catches whatever [math.tan] raises. *)
Definition tan (self : eng) : result eng :=
  let x := _angle self (_current_value (base self)) in
  match math_tan x with
  | Ok r => Ok (inherited (_set_current_from_value r) self)
  | Raise _ =>
      Ok (inherited (fun c =>
            let c := set_current "Error" c in
            update_display (current c) c) self)
  end.

Definition sinh (self : eng) : result eng :=
  let x := _current_value (base self) in
  match math_sinh x with
  | Ok r => Ok (inherited (_set_current_from_value r) self)
  | Raise e => Raise e
  end.

Definition cosh (self : eng) : result eng :=
  let x := _current_value (base self) in
  match math_cosh x with
  | Ok r => Ok (inherited (_set_current_from_value r) self)
  | Raise e => Raise e
  end.

Definition tanh (self : eng) : result eng :=
  let x := _current_value (base self) in
  match math_tanh x with
  | Ok r => Ok (inherited (_set_current_from_value r) self)
  | Raise e => Raise e
  end.

End Scientific.

Definition set_deg (self : eng) : eng := mk_eng (base self) true.
Definition set_rad (self : eng) : eng := mk_eng (base self) false.

End Quiz06.

(** ** Vocabulary of the statements *)

(** The cleared configuration, on a display that shows it. *)
Definition cleared : calc := mk_calc 0 "0" None false "0".

(** The configuration a division by zero leaves behind. *)
Definition failed : calc := mk_calc 0 "Error" None true "Error".

(** The binary operation an operator symbol stands for. *)
Definition binop (op : string) (a b : float) : float :=
  if String.eqb op PLUS then (a + b)%float
  else if String.eqb op MINUS then (a - b)%float
  else if String.eqb op TIMES then (a * b)%float
  else (a / b)%float.

Definition is_operator (op : string) : bool :=
  String.eqb op PLUS || String.eqb op MINUS
  || String.eqb op TIMES || String.eqb op DIVIDE.

(** A division whose right operand compares equal to zero. *)
Definition divides_by_zero (op : string) (b : float) : bool :=
  String.eqb op DIVIDE && (b =? 0)%float.

(** Digits typed one after the other into a Quiz06 engine. *)
Definition typed (ds : list string) (e : Quiz06.eng) : Quiz06.eng :=
  fold_left (fun e d => Quiz06.inherited (Quiz06.input_digit d) e) ds e.

(** [5 ÷ 9999999999] followed by five presses of the square key: the fifth
    square overflows, and the Quiz06 engine writes the error marker while the
    division is still pending. *)
Definition overflow_while_dividing : calc :=
  Quiz06.base
    (Nat.iter 5 Quiz06.square
       (typed ["9"; "9"; "9"; "9"; "9"; "9"; "9"; "9"; "9"; "9"]
          (Quiz06.inherited Quiz06.divide (typed ["5"] Quiz06.__init__)))).

(** The keys [1000000 × 1000000000000 % 0 0 =]: the percent key leaves the
    text [1e+16], two more zeros make it [1e+1600], which reads as
    infinity. *)
Definition overflow_keys : list string :=
  ["1"; "0"; "0"; "0"; "0"; "0"; "0"; "×";
   "1"; "0"; "0"; "0"; "0"; "0"; "0"; "0"; "0"; "0"; "0"; "0"; "0"; "%";
   "0"; "0"; "="].

(** A text that does not begin with a capital E. *)
Definition not_E (t : string) : Prop :=
  match t with
  | String c _ => Ascii.eqb c "E" = false
  | EmptyString => True
  end.

(** A text that is empty or begins with a decimal digit. *)
Definition digit_led (t : string) : Prop :=
  match t with
  | String c _ => Text.is_digit c = true
  | EmptyString => True
  end.

Fixpoint all_chars (P : ascii -> bool) (t : string) : bool :=
  match t with
  | String c r => P c && all_chars P r
  | EmptyString => true
  end.

Fixpoint some_char (P : ascii -> bool) (t : string) : bool :=
  match t with
  | String c r => P c || some_char P r
  | EmptyString => false
  end.

(** The numeric literals of the data model: an optional leading [-], then
    digits with at most one [.], at least one digit among them. *)
Definition valid_numeric (t : string) : bool :=
  let body := if Text.startswith "-" t then Text.tail t else t in
  all_chars (fun c => Text.is_digit c || Ascii.eqb c ".") body
  && (Text.count "." body <=? 1)%nat
  && some_char Text.is_digit body.

(** Leading zeros of an integer part, all but the last one, dropped. *)
Fixpoint lstrip_zeros (t : string) : string :=
  match t with
  | String c r =>
      if Ascii.eqb c "0" && Text.startswith_digit r then lstrip_zeros r else t
  | EmptyString => EmptyString
  end.

(** The text with the leading zeros of its integer part dropped; a sign is
    kept as it is. *)
Definition normalize (t : string) : string :=
  let neg := Text.startswith "-" t in
  let body := lstrip_zeros (if neg then Text.tail t else t) in
  if neg then "-" ++ body else body.

(** The keys that leave the valid numeric text [-0]: minus five times
    zero. *)
Definition negative_zero_keys : list string := ["5"; "±"; "×"; "0"; "="].

(** The keys of the valid numeric text [1.2345678901234]. *)
Definition long_fraction_keys : list string :=
  ["1"; "."; "2"; "3"; "4"; "5"; "6"; "7"; "8"; "9"; "0"; "1"; "2"; "3"; "4"].

(** The keys of the valid numeric text [0.00...01000000000003], with 311
    zeros after the point: the number 1.000000000003e-312. *)
Definition tiny_keys : list string :=
  ["0"; "."] ++ repeat "0" 311 ++
  ["1"; "0"; "0"; "0"; "0"; "0"; "0"; "0"; "0"; "0"; "0"; "0"; "3"].

(** The "start fresh after evaluation" trigger of the two input methods. *)
Definition fresh_number (s : calc) : bool :=
  just_evaluated s && is_None (pending_op s).

(** What a scientific key does with the outcome of its [math] call when it
    has no handler of its own: write the value back, or let the exception
    through. *)
Definition written (c : calc) (deg : bool)
    (r : result float) : result Quiz06.eng :=
  match r with
  | Ok y => Ok (Quiz06.mk_eng (Quiz06._set_current_from_value y c) deg)
  | Raise e => Raise e
  end.

(** The same for Tan, whose handler turns an exception into the error
    marker. *)
Definition written_or_marked (c : calc) (deg : bool)
    (r : result float) : result Quiz06.eng :=
  match r with
  | Ok y => Ok (Quiz06.mk_eng (Quiz06._set_current_from_value y c) deg)
  | Raise _ => Ok (Quiz06.mk_eng (mk_calc (acc c) "Error" (pending_op c)
                                          (just_evaluated c) "Error") deg)
  end.

(** ** The buttons and the user-interface dispatch

    [CalculatorUI.build_ui] of Quiz04 creates one button per label of [rows],
    each wired to [on_button] with its own label. *)

Module Quiz04UI.

Definition rows : list (list string) :=
  [["AC"; "±"; "%"; "÷"];
   ["7"; "8"; "9"; "×"];
   ["4"; "5"; "6"; "−"];
   ["1"; "2"; "3"; "+"];
   ["0"; "."; "="]].

Definition buttons : list string := List.concat rows.

Definition digit_labels : list string :=
  ["0"; "1"; "2"; "3"; "4"; "5"; "6"; "7"; "8"; "9"].

End Quiz04UI.

(** The public methods of Quiz06's [EngineeringCalculator], as calls, and
    what a sequence of calls does to an engine; an exception ends the
    sequence. *)

Module Session06.

Inductive call : Type :=
| Reset
| InputDigit (d : string)
| InputDot
| NegativePositive
| Percent
| Add
| Subtract
| Multiply
| Divide
| Equal
| InsertPi
| Square
| Cube
| Sin
| Cos
| Tan
| Sinh
| Cosh
| Tanh
| SetDeg
| SetRad.

Section Perform.

Context {M : MathModule}.

Definition perform (c : call) (e : Quiz06.eng) : result Quiz06.eng :=
  match c with
  | Reset => Ok (Quiz06.inherited Quiz06.reset e)
  | InputDigit d => Ok (Quiz06.inherited (Quiz06.input_digit d) e)
  | InputDot => Ok (Quiz06.inherited Quiz06.input_dot e)
  | NegativePositive => Ok (Quiz06.inherited Quiz06.negative_positive e)
  | Percent => Ok (Quiz06.inherited Quiz06.percent e)
  | Add => Ok (Quiz06.inherited Quiz06.add e)
  | Subtract => Ok (Quiz06.inherited Quiz06.subtract e)
  | Multiply => Ok (Quiz06.inherited Quiz06.multiply e)
  | Divide => Ok (Quiz06.inherited Quiz06.divide e)
  | Equal => Ok (Quiz06.inherited Quiz06.equal e)
  | InsertPi => Ok (Quiz06.insert_pi e)
  | Square => Ok (Quiz06.square e)
  | Cube => Ok (Quiz06.cube e)
  | Sin => Quiz06.sin e
  | Cos => Quiz06.cos e
  | Tan => Quiz06.tan e
  | Sinh => Quiz06.sinh e
  | Cosh => Quiz06.cosh e
  | Tanh => Quiz06.tanh e
  | SetDeg => Ok (Quiz06.set_deg e)
  | SetRad => Ok (Quiz06.set_rad e)
  end.

Fixpoint session (cs : list call) (e : Quiz06.eng) : result Quiz06.eng :=
  match cs with
  | [] => Ok e
  | c :: rest =>
      match perform c e with
      | Ok e' => session rest e'
      | Raise x => Raise x
      end
  end.

End Perform.

(** The digits a call of [input_digit] is given: the user interface passes
    it the labels for which [label.isdigit()] holds. *)
Definition digits_only (c : call) : Prop :=
  match c with
  | InputDigit d => isdigit d = true
  | _ => True
  end.

End Session06.

(** ** Vocabulary of the further properties *)

(** The characters of the [.12g] text of a finite number. *)
Definition numeric_char (c : ascii) : bool :=
  Text.is_digit c || Ascii.eqb c "." || Ascii.eqb c "-" || Ascii.eqb c "+"
  || Ascii.eqb c "e".

(** The characters of any [.12g] text: the former and the letters of [inf]
    and [nan]. *)
Definition format_char (c : ascii) : bool :=
  numeric_char c || Ascii.eqb c "i" || Ascii.eqb c "n" || Ascii.eqb c "f"
  || Ascii.eqb c "a".

(** The characters of a Quiz06 text: those of a finite number and the
    letters of the error marker. *)
Definition char06 (c : ascii) : bool :=
  numeric_char c || Ascii.eqb c "E" || Ascii.eqb c "r" || Ascii.eqb c "o".

(** The error marker after the sign key. *)
Definition failed_negated : calc := mk_calc 0 "-Error" None true "-Error".

(** The letter [r] only occurs in the error marker, and the error marker
    only in the state a division by zero leaves, or in that state after the
    sign key. *)
Definition marker_alone (s : calc) : Prop :=
  Text.contains "r" (current s) = true -> s = failed \/ s = failed_negated.

(** The display shows the text, except right after an operator key, when it
    still shows the left operand while the text is back to ["0"]. *)
Definition display_follows (s : calc) : Prop :=
  display s = current s \/ (current s = "0" /\ pending_op s <> None).

(** The pending operator is one of the four symbols. *)
Definition pending_known (s : calc) : Prop :=
  forall p, pending_op s = Some p -> is_operator p = true.

(** What every state of a Quiz04 session satisfies. *)
Definition wf04 (s : calc) : Prop :=
  current s <> "" /\
  (Text.count "." (current s) <= 1)%nat /\
  marker_alone s /\
  display_follows s /\
  pending_known s.

(** The text of the labels typed, one after the other. *)
Definition typed_text (ds : list string) : string :=
  fold_right append "" ds.

(** A text that is not empty, has at most one point and is made of the
    characters of [char06]. *)
Definition text_ok (t : string) : Prop :=
  t <> "" /\ (Text.count "." t <= 1)%nat /\ all_chars char06 t = true.

(** The calls that act on the text alone. *)
Definition unary_calls : list Session06.call :=
  [Session06.InsertPi; Session06.Square; Session06.Cube; Session06.Sin;
   Session06.Cos; Session06.Tan; Session06.Sinh; Session06.Cosh;
   Session06.Tanh].

(** A [math] module all of whose functions raise [ValueError]: one of the
    behaviours the engine is verified for. *)
Definition raising_math : MathModule :=
  {| math_sin := fun _ => Raise ValueError;
     math_cos := fun _ => Raise ValueError;
     math_tan := fun _ => Raise ValueError;
     math_sinh := fun _ => Raise ValueError;
     math_cosh := fun _ => Raise ValueError;
     math_tanh := fun _ => Raise ValueError |}.

(** justEvaluated is only set while no operator is pending. *)
Definition evaluated_alone (s : calc) : Prop :=
  just_evaluated s = true -> pending_op s = None.

(** The angle mode after a sequence of calls that started in mode [m]: that
    of the last [set_deg] or [set_rad] among them. *)
Definition mode_after (cs : list Session06.call) (m : bool) : bool :=
  fold_left (fun m c =>
               match c with
               | Session06.SetDeg => true
               | Session06.SetRad => false
               | _ => m
               end) cs m.

(** The text that digit keys leave when typed on the text ["0"], and the
    number it reads as. *)
Definition typed_number (ds : list string) : string :=
  lstrip_zeros ("0" ++ typed_text ds).

Definition operand (ds : list string) : float :=
  match PyFloat.of_string (typed_number ds) with
  | Some v => v
  | None => 0%float
  end.

(** A chain of entries [op digits op digits ...]: its keys, the value of its
    left-to-right fold from [a], and whether the fold meets no division by
    zero. *)
Definition chain_keys (steps : list (string * list string)) : list string :=
  flat_map (fun st => fst st :: snd st) steps.

Fixpoint chain_value (a : float) (steps : list (string * list string)) : float :=
  match steps with
  | [] => a
  | (op, ds) :: rest => chain_value (binop op a (operand ds)) rest
  end.

Fixpoint chain_defined (a : float) (steps : list (string * list string)) : bool :=
  match steps with
  | [] => true
  | (op, ds) :: rest =>
      negb (divides_by_zero op (operand ds))
      && chain_defined (binop op a (operand ds)) rest
  end.

Definition digit_keys (ds : list string) : Prop :=
  Forall (fun d => In d Quiz04UI.digit_labels) ds.

Definition well_keyed (steps : list (string * list string)) : Prop :=
  Forall (fun st => In (fst st) [PLUS; MINUS; TIMES; DIVIDE]
                    /\ digit_keys (snd st)) steps.

(** Ten nines typed and five calls of [square]: the fifth overflows. *)
Definition overflow_calls : list Session06.call :=
  repeat (Session06.InputDigit "9") 10 ++ repeat Session06.Square 5.

(** The keys [0 . 0 0 0 0 1 %]: the text becomes [1e-07]. *)
Definition small_percent_keys : list string :=
  ["0"; "."; "0"; "0"; "0"; "0"; "1"; "%"].

(** ** Basic facts *)

Ltac fields :=
  unfold Quiz04._set_current_from_value, Quiz06._set_current_from_value,
    Quiz04.reset, Quiz06.reset,
    set_acc, set_current, set_pending_op, set_just_evaluated, update_display;
  cbn [acc current pending_op just_evaluated display].

Lemma eqb_Error_false (t : string) : t <> "Error" -> String.eqb t "Error" = false.
Proof. intro H. now apply String.eqb_neq. Qed.

Lemma reset04_cleared (s : calc) : Quiz04.reset s = cleared.
Proof. reflexivity. Qed.

Lemma reset06_cleared (s : calc) : Quiz06.reset s = cleared.
Proof. reflexivity. Qed.

Lemma init04_cleared : Quiz04.__init__ = cleared.
Proof. reflexivity. Qed.

(** What a fold does when it does not divide by zero. *)
Lemma apply_pending04_ok (s : calc) (p : string) :
  pending_op s = Some p ->
  is_operator p = true ->
  divides_by_zero p (Quiz04._current_value s) = false ->
  Quiz04._apply_pending s =
    (None,
     let res := binop p (acc s) (Quiz04._current_value s) in
     mk_calc res (PyFloat.format_12g res) (Some p) (just_evaluated s)
             (PyFloat.format_12g res)).
Proof.
  intros Hp Hop Hz. unfold Quiz04._apply_pending, binop. rewrite Hp.
  unfold is_operator, divides_by_zero in *.
  destruct (String.eqb p PLUS); [fields; now rewrite Hp|].
  destruct (String.eqb p MINUS); [fields; now rewrite Hp|].
  destruct (String.eqb p TIMES); [fields; now rewrite Hp|].
  destruct (String.eqb p DIVIDE); [|discriminate].
  cbn in Hz. rewrite Hz. fields. now rewrite Hp.
Qed.

Lemma apply_pending04_zero (s : calc) :
  pending_op s = Some DIVIDE ->
  (Quiz04._current_value s =? 0)%float = true ->
  Quiz04._apply_pending s = (Some "error", mk_calc 0 "Error" None true "Error").
Proof.
  intros Hp Hz. unfold Quiz04._apply_pending. rewrite Hp. cbn.
  rewrite Hz. reflexivity.
Qed.

Lemma apply_pending06_ok (s : calc) (p : string) :
  pending_op s = Some p ->
  is_operator p = true ->
  divides_by_zero p (Quiz06._current_value s) = false ->
  Quiz06._apply_pending s =
    (None,
     let res := binop p (acc s) (Quiz06._current_value s) in
     let text := if is_finite res then PyFloat.format_12g res else "Error" in
     mk_calc res text (Some p) (just_evaluated s) text).
Proof.
  intros Hp Hop Hz. unfold Quiz06._apply_pending, binop. rewrite Hp.
  unfold is_operator, divides_by_zero in *.
  destruct (String.eqb p PLUS); [fields; now rewrite Hp|].
  destruct (String.eqb p MINUS); [fields; now rewrite Hp|].
  destruct (String.eqb p TIMES); [fields; now rewrite Hp|].
  destruct (String.eqb p DIVIDE); [|discriminate].
  cbn in Hz. rewrite Hz. fields. now rewrite Hp.
Qed.

Lemma apply_pending06_zero (s : calc) :
  pending_op s = Some DIVIDE ->
  (Quiz06._current_value s =? 0)%float = true ->
  Quiz06._apply_pending s = (Some "error", mk_calc 0 "Error" None true "Error").
Proof.
  intros Hp Hz. unfold Quiz06._apply_pending. rewrite Hp. cbn.
  rewrite Hz. reflexivity.
Qed.

(** ** Division by zero *)

(** C1, as stated, fails: a Divide is pending and the text parses to 0 (the
    error marker is read as 0), yet Evaluate and PressOperator clear the
    engine instead of writing the error marker. *)
Lemma C1_counterexample :
  overflow_while_dividing = mk_calc 5 "Error" (Some DIVIDE) false "Error" /\
  pending_op overflow_while_dividing = Some DIVIDE /\
  (Quiz06._current_value overflow_while_dividing =? 0)%float = true /\
  Quiz06.equal overflow_while_dividing = cleared /\
  Quiz06._press_operator PLUS overflow_while_dividing = cleared /\
  current (Quiz06.equal overflow_while_dividing) <> "Error".
Proof. vm_compute. repeat split; discriminate. Qed.

(** C1 (amended): with a Divide pending, a text that is not the error marker
    and parses to a value equal to 0, Evaluate and the fold of a chained
    PressOperator leave the text and the display on the error marker, the
    accumulator at 0, no pending operator and justEvaluated set, in both
    engines; they are total functions, so nothing is raised; Clear then gives
    the cleared configuration, and 5 ÷ 0 = shows the error marker. *)
Theorem C1_division_by_zero_contained (s : calc) (op : string) :
  pending_op s = Some DIVIDE ->
  current s <> "Error" ->
  (Quiz04._current_value s =? 0)%float = true ->
  (Quiz04.equal s = failed /\ Quiz04._press_operator op s = failed /\
   Quiz06.equal s = failed /\ Quiz06._press_operator op s = failed) /\
  (Quiz04.reset failed = cleared /\ Quiz06.reset failed = cleared) /\
  Quiz04.press ["5"; "÷"; "0"; "="] Quiz04.__init__ = failed.
Proof.
  intros Hp He Hz. split; [|split; [split|]; reflexivity].
  unfold Quiz04.equal, Quiz04._press_operator, Quiz06.equal,
    Quiz06._press_operator.
  rewrite (eqb_Error_false _ He), Hp.
  rewrite (apply_pending04_zero s Hp Hz), (apply_pending06_zero s Hp Hz).
  repeat split.
Qed.

Lemma C1_witness :
  let s := Quiz04.press ["5"; "÷"; "0"] Quiz04.__init__ in
  (pending_op s = Some DIVIDE /\ current s <> "Error" /\
   (Quiz04._current_value s =? 0)%float = true) /\
  Quiz04.equal s = failed /\ Quiz04._press_operator TIMES s = failed.
Proof.
  intro s.
  assert (Hp : pending_op s = Some DIVIDE) by reflexivity.
  assert (He : current s <> "Error") by (vm_compute; discriminate).
  assert (Hz : (Quiz04._current_value s =? 0)%float = true) by reflexivity.
  destruct (C1_division_by_zero_contained s TIMES Hp He Hz) as [[H1 [H2 _]] _].
  repeat split; assumption.
Defined.

(** ** Chained operators *)

(** C2, as stated, fails: after [5 ÷ 0] an operator is pending, yet pressing
    [+] records no operator and leaves the error marker, not ["0"]. *)
Lemma C2_counterexample :
  let s := Quiz04.press ["5"; "÷"; "0"] Quiz04.__init__ in
  pending_op s = Some DIVIDE /\
  Quiz04._press_operator PLUS s = failed /\
  pending_op (Quiz04._press_operator PLUS s) <> Some PLUS /\
  current (Quiz04._press_operator PLUS s) <> "0".
Proof. vm_compute. repeat split; discriminate. Qed.

(** C2 (amended): when one of the four operators is pending, the text is not
    the error marker and the fold is not a division by zero, PressOperator(op)
    stores [accumulator (pending) parse(currentText)] in the accumulator,
    shows it, records [op] as pending and resets the text to ["0"]; so
    2 + 3 × 4 = shows 20, not 14. *)
Theorem C2_left_fold (s : calc) (p op : string) :
  pending_op s = Some p ->
  is_operator p = true ->
  current s <> "Error" ->
  divides_by_zero p (Quiz04._current_value s) = false ->
  Quiz04._press_operator op s =
    (let res := binop p (acc s) (Quiz04._current_value s) in
     mk_calc res "0" (Some op) false (PyFloat.format_12g res)) /\
  display (Quiz04.press ["2"; "+"; "3"; "×"; "4"; "="] Quiz04.__init__) = "20".
Proof.
  intros Hp Hop He Hz. split; [|reflexivity].
  unfold Quiz04._press_operator.
  rewrite (eqb_Error_false _ He), Hp, (apply_pending04_ok s p Hp Hop Hz).
  reflexivity.
Qed.

Lemma C2_witness :
  let s := Quiz04.press ["2"; "+"; "3"] Quiz04.__init__ in
  (pending_op s = Some PLUS /\ is_operator PLUS = true /\
   current s <> "Error" /\
   divides_by_zero PLUS (Quiz04._current_value s) = false) /\
  Quiz04._press_operator TIMES s = mk_calc 5 "0" (Some TIMES) false "5".
Proof.
  intro s.
  assert (Hp : pending_op s = Some PLUS) by reflexivity.
  assert (He : current s <> "Error") by (vm_compute; discriminate).
  destruct (C2_left_fold s PLUS TIMES Hp eq_refl He eq_refl) as [H _].
  split; [repeat split; assumption|].
  rewrite H. reflexivity.
Defined.

(** ** Results that are not finite *)

(** The Quiz06 engine writes the error marker for every value that is not
    finite, whatever the operation that produced it. *)
Lemma set_current_from_value06_not_finite (val : float) (s : calc) :
  is_finite val = false ->
  Quiz06._set_current_from_value val s =
    mk_calc (acc s) "Error" (pending_op s) (just_evaluated s) "Error".
Proof.
  intro H. unfold Quiz06._set_current_from_value, Quiz06.math_isfinite.
  rewrite H. reflexivity.
Qed.

Lemma set_current_from_value06_finite (val : float) (s : calc) :
  is_finite val = true ->
  Quiz06._set_current_from_value val s =
    mk_calc (acc s) (PyFloat.format_12g val) (pending_op s) (just_evaluated s)
            (PyFloat.format_12g val).
Proof.
  intro H. unfold Quiz06._set_current_from_value, Quiz06.math_isfinite.
  rewrite H. reflexivity.
Qed.

(** Percent in Quiz06: a result that is not finite puts the error marker in
    the text and on the display. *)
Lemma percent06_not_finite (s : calc) :
  let v := Quiz06._current_value s in
  is_finite (match pending_op s with
             | Some _ => acc s * (v / 100)
             | None => v / 100
             end) = false ->
  current (Quiz06.percent s) = "Error" /\ display (Quiz06.percent s) = "Error".
Proof.
  intros v H. unfold Quiz06.percent. fold v. cbv zeta.
  rewrite set_current_from_value06_not_finite by exact H.
  split; reflexivity.
Qed.

(** Evaluate in Quiz06 without a pending operator: a text that reads as an
    infinity or a NaN is replaced by the error marker. *)
Lemma equal06_not_finite (s : calc) :
  pending_op s = None ->
  current s <> "Error" ->
  is_finite (Quiz06._current_value s) = false ->
  current (Quiz06.equal s) = "Error" /\ display (Quiz06.equal s) = "Error".
Proof.
  intros Hp He H. unfold Quiz06.equal. rewrite (eqb_Error_false _ He), Hp.
  rewrite set_current_from_value06_not_finite by exact H.
  split; reflexivity.
Qed.

(** The fold of a pending operator in Quiz06, by Evaluate or by a chained
    operator: a result that is not finite puts the error marker on the
    display; after Evaluate it is the text as well, while a chained operator
    goes on to reset the text to ["0"] as it does after every fold. *)
Lemma fold06_not_finite (s : calc) (p op : string) :
  pending_op s = Some p ->
  is_operator p = true ->
  current s <> "Error" ->
  divides_by_zero p (Quiz06._current_value s) = false ->
  is_finite (binop p (acc s) (Quiz06._current_value s)) = false ->
  (current (Quiz06.equal s) = "Error" /\ display (Quiz06.equal s) = "Error") /\
  display (Quiz06._press_operator op s) = "Error".
Proof.
  intros Hp Hop He Hz H. unfold Quiz06.equal, Quiz06._press_operator.
  rewrite (eqb_Error_false _ He), Hp, (apply_pending06_ok s p Hp Hop Hz).
  cbv zeta. rewrite H. repeat split.
Qed.

(** Square and cube in Quiz06. *)
Lemma quiz06_powers_not_finite (e : Quiz06.eng) :
  let v := Quiz06._current_value (Quiz06.base e) in
  (is_finite (v * v) = false ->
   current (Quiz06.base (Quiz06.square e)) = "Error") /\
  (is_finite (v * v * v) = false ->
   current (Quiz06.base (Quiz06.cube e)) = "Error").
Proof.
  split; intro H; unfold Quiz06.square, Quiz06.cube, Quiz06.inherited;
    cbn [Quiz06.base]; now rewrite set_current_from_value06_not_finite.
Qed.

(** The six functions of Quiz06 that call the [math] module: whenever the
    call returns a value that is not finite, the error marker is written. *)
Lemma quiz06_scientific_not_finite {M : MathModule} (e : Quiz06.eng)
    (f : Quiz06.eng -> result Quiz06.eng) (m : float -> result float)
    (r : float) :
  (f = Quiz06.sin /\ m = math_sin \/ f = Quiz06.cos /\ m = math_cos \/
   f = Quiz06.tan /\ m = math_tan) ->
  m (Quiz06._angle e (Quiz06._current_value (Quiz06.base e))) = Ok r ->
  is_finite r = false ->
  exists e', f e = Ok e' /\ current (Quiz06.base e') = "Error" /\
             display (Quiz06.base e') = "Error".
Proof.
  intros Hf Hm Hr.
  exists (Quiz06.inherited (Quiz06._set_current_from_value r) e).
  unfold Quiz06.inherited; cbn [Quiz06.base].
  rewrite set_current_from_value06_not_finite by exact Hr.
  destruct Hf as [[-> ->] | [[-> ->] | [-> ->]]];
    unfold Quiz06.sin, Quiz06.cos, Quiz06.tan, Quiz06.inherited;
    rewrite Hm, set_current_from_value06_not_finite by exact Hr; auto.
Qed.

Lemma quiz06_hyperbolic_not_finite {M : MathModule} (e : Quiz06.eng)
    (f : Quiz06.eng -> result Quiz06.eng) (m : float -> result float)
    (r : float) :
  (f = Quiz06.sinh /\ m = math_sinh \/ f = Quiz06.cosh /\ m = math_cosh \/
   f = Quiz06.tanh /\ m = math_tanh) ->
  m (Quiz06._current_value (Quiz06.base e)) = Ok r ->
  is_finite r = false ->
  exists e', f e = Ok e' /\ current (Quiz06.base e') = "Error" /\
             display (Quiz06.base e') = "Error".
Proof.
  intros Hf Hm Hr.
  exists (Quiz06.inherited (Quiz06._set_current_from_value r) e).
  unfold Quiz06.inherited; cbn [Quiz06.base].
  rewrite set_current_from_value06_not_finite by exact Hr.
  destruct Hf as [[-> ->] | [[-> ->] | [-> ->]]];
    unfold Quiz06.sinh, Quiz06.cosh, Quiz06.tanh, Quiz06.inherited;
    rewrite Hm, set_current_from_value06_not_finite by exact Hr; auto.
Qed.

(** C3 in Quiz04: the value-formatting rule of [Quiz04/calculator.py] has no
    finiteness test, so an infinite or NaN result is written as the text
    [inf], [-inf] or [nan] and not as the error marker. *)
Theorem C3_quiz04_writes_inf (s : calc) :
  current (Quiz04._set_current_from_value infinity s) = "inf" /\
  current (Quiz04._set_current_from_value neg_infinity s) = "-inf" /\
  current (Quiz04._set_current_from_value nan s) = "nan" /\
  Quiz04.press overflow_keys Quiz04.__init__ =
    mk_calc infinity "inf" None true "inf".
Proof. repeat split; vm_compute; reflexivity. Qed.

(** ** Percent *)

(** C4: Percent writes [accumulator * (v / 100)] through the formatting rule
    when an operator is pending and [v / 100] when none is, with
    [v = parse(currentText)], and touches nothing else; 200 + 10 % shows 20,
    not 0.1. *)
Theorem C4_percent (s : calc) :
  let v := Quiz04._current_value s in
  (forall op, pending_op s = Some op ->
     Quiz04.percent s =
       Quiz04._set_current_from_value (acc s * (v / 100)) s /\
     current (Quiz04.percent s) = PyFloat.format_12g (acc s * (v / 100)) /\
     display (Quiz04.percent s) = PyFloat.format_12g (acc s * (v / 100))) /\
  (pending_op s = None ->
     Quiz04.percent s = Quiz04._set_current_from_value (v / 100) s /\
     current (Quiz04.percent s) = PyFloat.format_12g (v / 100) /\
     display (Quiz04.percent s) = PyFloat.format_12g (v / 100)) /\
  (acc (Quiz04.percent s) = acc s /\
   pending_op (Quiz04.percent s) = pending_op s /\
   just_evaluated (Quiz04.percent s) = just_evaluated s) /\
  display (Quiz04.press ["2"; "0"; "0"; "+"; "1"; "0"; "%"] Quiz04.__init__)
    = "20" /\
  PyFloat.format_12g (10 / 100) = "0.1".
Proof.
  intro v. unfold Quiz04.percent. fold v.
  split; [|split; [|split; [|split]]].
  - intros op Hp. rewrite Hp. cbv zeta. repeat split.
  - intros Hp. rewrite Hp. cbv zeta. repeat split.
  - repeat split.
  - reflexivity.
  - reflexivity.
Qed.

Lemma C4_witness :
  let s := Quiz04.press ["2"; "0"; "0"; "+"; "1"; "0"] Quiz04.__init__ in
  pending_op s = Some PLUS /\
  current (Quiz04.percent s) = "20".
Proof.
  intro s. split; [reflexivity|].
  destruct (C4_percent s) as [H _].
  destruct (H PLUS eq_refl) as [_ [-> _]].
  reflexivity.
Defined.

(** ** The error marker as input *)

(** C5: on the error marker, PressOperator(op) and Evaluate only clear the
    engine: no operator is recorded and nothing is evaluated. *)
Theorem C5_error_marker_clears (s : calc) (op : string) :
  current s = "Error" ->
  Quiz04._press_operator op s = cleared /\ Quiz04.equal s = cleared /\
  Quiz04._press_operator op s = Quiz04.reset s /\
  Quiz04.equal s = Quiz04.reset s /\
  cleared = mk_calc 0 "0" None false "0".
Proof.
  intro H. unfold Quiz04._press_operator, Quiz04.equal. rewrite H.
  repeat split.
Qed.

Lemma C5_witness :
  current failed = "Error" /\
  Quiz04._press_operator PLUS failed = cleared /\ Quiz04.equal failed = cleared.
Proof.
  split; [reflexivity|].
  destruct (C5_error_marker_clears failed PLUS eq_refl) as [H1 [H2 _]].
  split; assumption.
Defined.

(** C10: after a division by zero a digit starts a fresh number, exactly as
    Clear followed by the digit would ([d] may be any text, a digit in
    particular). *)
Theorem C10_digit_after_error (s : calc) (d : string) :
  current s = "Error" ->
  acc s = 0%float ->
  pending_op s = None ->
  just_evaluated s = true ->
  Quiz04.input_digit d s = Quiz04.input_digit d (Quiz04.reset s) /\
  Quiz04.input_digit d s = mk_calc 0 d None false d.
Proof.
  intros Hc Ha Hp Hj. unfold Quiz04.input_digit. rewrite Hp, Hj.
  cbn. fields. rewrite Ha, Hp. split; reflexivity.
Qed.

Lemma C10_witness :
  let s := Quiz04.press ["5"; "÷"; "0"; "="] Quiz04.__init__ in
  current s = "Error" /\
  Quiz04.input_digit "7" s = mk_calc 0 "7" None false "7".
Proof.
  intro s. split; [reflexivity|].
  exact (proj2 (C10_digit_after_error s "7" eq_refl eq_refl eq_refl eq_refl)).
Defined.

(** ** The formatted text is never the error marker *)

Lemma not_E_Error (t : string) : not_E t -> t <> "Error".
Proof. intros H ->. discriminate H. Qed.

Lemma digit_not_E (c : ascii) : Text.is_digit c = true -> Ascii.eqb c "E" = false.
Proof.
  intro H. destruct (Ascii.eqb_spec c "E") as [-> | _]; [discriminate H | reflexivity].
Qed.

Lemma of_N_digit_led (n : N) : digit_led (Text.of_N n).
Proof.
  unfold Text.of_N. destruct (N.to_uint n); reflexivity.
Qed.

Lemma rstrip_char_digit_led (c : ascii) (t : string) :
  digit_led t -> digit_led (Text.rstrip_char c t).
Proof.
  destruct t as [|x r]; [exact (fun H => H)|].
  cbn. destruct (Text.rstrip_char c r); [|exact (fun H => H)].
  destruct (Ascii.eqb x c); [exact (fun _ => I) | exact (fun H => H)].
Qed.

Lemma dtoa_digit_led (n : Z) (m : positive) (e : Z) :
  digit_led (fst (PyFloat.dtoa n m e)).
Proof.
  unfold PyFloat.dtoa. destruct (PyFloat.exact_decimal m e) as [i j].
  destruct (_ <=? n).
  - apply rstrip_char_digit_led, of_N_digit_led.
  - destruct (Z.div_eucl i _) as [q r].
    destruct (_ =? 10 ^ n); [reflexivity|].
    apply rstrip_char_digit_led, of_N_digit_led.
Qed.

Lemma with_point_head (c : ascii) (r fp : string) :
  exists t, PyFloat.with_point (String c r) fp = String c t.
Proof. destruct fp; cbn; eauto. Qed.

Lemma layout_g_not_E (p : Z) (ds : string) (decpt : Z) :
  digit_led ds -> not_E (PyFloat.layout_g p ds decpt).
Proof.
  intro H. unfold PyFloat.layout_g.
  destruct (_ || _).
  - destruct ds as [|c r]; [reflexivity|].
    change (substring 0 1 (String c r)) with (String c (substring 0 0 r)).
    destruct (with_point_head c (substring 0 0 r)
                (substring 1 (String.length (String c r) - 1) (String c r)))
      as [t ->].
    cbn. now apply digit_not_E.
  - destruct (decpt <=? 0) eqn:Hd; [reflexivity|].
    destruct (_ <=? decpt).
    + destruct ds as [|c r]; [|cbn; now apply digit_not_E].
      cbn. destruct (Z.to_nat _); reflexivity.
    + apply Z.leb_gt in Hd.
      destruct (Z.to_nat decpt) as [|k] eqn:Hk; [lia|].
      destruct ds as [|c r].
      * cbn. reflexivity.
      * change (substring 0 (S k) (String c r))
          with (String c (substring 0 k r)).
        destruct (with_point_head c (substring 0 k r)
                    (substring (S k) (String.length (String c r) - S k)
                       (String c r))) as [t ->].
        cbn. now apply digit_not_E.
Qed.

Lemma format_12g_not_Error (x : float) : PyFloat.format_12g x <> "Error".
Proof.
  apply not_E_Error. unfold PyFloat.format_12g.
  destruct (Prim2SF x) as [[|] | [|] | | [|] m e]; try reflexivity.
  - destruct (PyFloat.dtoa 12 m e). reflexivity.
  - pose proof (dtoa_digit_led 12 m e) as H.
    destruct (PyFloat.dtoa 12 m e) as [ds decpt]. cbn [fst] in H.
    cbn [append]. now apply layout_g_not_E.
Qed.

(** ** Numeric texts *)

Lemma valid_numeric_not_Error (t : string) :
  valid_numeric t = true -> t <> "Error".
Proof. intros H ->. discriminate H. Qed.

(** ** Evaluate without a pending operator *)

(** C7: Evaluate with no pending operator does not keep the text (the
    source's own remark there is "Nothing to do; keep current"): it reads the
    text as a number and writes it back with 12 significant digits.  Typed on
    a new calculator, the valid text 1.2345678901234 becomes 1.23456789012,
    which is not numerically equal to the value entered.  The valid text of
    1.000000000003e-312 becomes 1e-312, and a second Evaluate changes the
    text again, to 9.99999999998e-313: the nearest binary64 number to 1e-312
    lies below it by more than half a unit of its twelfth digit. *)
Theorem C7_evaluate_does_not_keep_text :
  let s := Quiz04.press long_fraction_keys Quiz04.__init__ in
  let t := Quiz04.press tiny_keys Quiz04.__init__ in
  (current s = "1.2345678901234" /\
   valid_numeric (current s) = true /\
   pending_op s = None /\
   display (Quiz04.equal s) = "1.23456789012" /\
   (Quiz04._current_value (Quiz04.equal s) =? Quiz04._current_value s)%float
     = false) /\
  (valid_numeric (current t) = true /\
   pending_op t = None /\
   display (Quiz04.equal t) = "1e-312" /\
   display (Quiz04.equal (Quiz04.equal t)) = "9.99999999998e-313" /\
   Quiz04.equal (Quiz04.equal t) <> Quiz04.equal t).
Proof. vm_compute. repeat split. discriminate. Qed.

(** ** The decimal point *)

Lemma count_app (c : ascii) (a b : string) :
  Text.count c (a ++ b) = (Text.count c a + Text.count c b)%nat.
Proof.
  induction a as [|x a IH]; [reflexivity|].
  cbn. rewrite IH. lia.
Qed.

Lemma contains_count (c : ascii) (t : string) :
  Text.contains c t = false <-> Text.count c t = 0%nat.
Proof.
  induction t as [|x t IH]; cbn; [tauto|].
  destruct (Ascii.eqb x c); cbn; [split; [discriminate | lia] | exact IH].
Qed.

Lemma input_dot_count (s : calc) :
  (Text.count "." (current s) <= 1)%nat ->
  (Text.count "." (current (Quiz04.input_dot s)) <= 1)%nat.
Proof.
  intro H. unfold Quiz04.input_dot.
  destruct (just_evaluated s && is_None (pending_op s)); [cbn; lia|].
  destruct (Text.contains "." (current s)) eqn:Hc; cbn [negb]; [exact H|].
  apply contains_count in Hc. fields. rewrite count_app, Hc.
  destruct (current s); cbn; lia.
Qed.

Lemma input_dot_appends (s : calc) :
  fresh_number s = false ->
  (Text.contains "." (current s) = true -> Quiz04.input_dot s = s) /\
  (Text.contains "." (current s) = false ->
   current (Quiz04.input_dot s) =
     current s ++ (match current s with EmptyString => "0." | _ => "." end)).
Proof.
  unfold fresh_number, Quiz04.input_dot. intros ->.
  split; intros ->; reflexivity.
Qed.

(** C8: the text of a new engine has no point, a call of InputDecimalPoint
    keeps "at most one point", so does any number of calls in a row, and
    without a fresh-number trigger the call leaves a text that already has
    a point as it is. *)
Theorem C8_single_decimal_point (s : calc) (n : nat) :
  (Text.count "." (current s) <= 1)%nat ->
  (Text.count "." (current Quiz04.__init__) <= 1)%nat /\
  (Text.count "." (current (Quiz04.input_dot s)) <= 1)%nat /\
  (Text.count "." (current (Nat.iter n Quiz04.input_dot s)) <= 1)%nat /\
  (fresh_number s = false -> Text.contains "." (current s) = true ->
   Quiz04.input_dot s = s).
Proof.
  intro H. split; [cbn; lia|]. split; [now apply input_dot_count|]. split.
  - induction n as [|n IH]; [exact H|].
    cbn [Nat.iter]. now apply input_dot_count.
  - intros Hf Hc. now apply (input_dot_appends s Hf).
Qed.

Lemma C8_witness :
  let s := Quiz04.press ["3"; "."; "1"] Quiz04.__init__ in
  (Text.count "." (current s) <= 1)%nat /\
  (Text.count "." (current (Nat.iter 4 Quiz04.input_dot s)) <= 1)%nat /\
  Quiz04.input_dot s = s.
Proof.
  intro s.
  assert (H : (Text.count "." (current s) <= 1)%nat) by (vm_compute; lia).
  destruct (C8_single_decimal_point s 4 H) as [_ [_ [H3 H4]]].
  split; [exact H|]. split; [exact H3|].
  apply H4; reflexivity.
Defined.

(** ** The sign key *)

Lemma valid_numeric_cases (t : string) :
  valid_numeric t = true ->
  (exists c r, t = String "-" (String c r) /\ Ascii.eqb c "-" = false) \/
  (exists c r, t = String c r /\ Ascii.eqb c "-" = false).
Proof.
  unfold valid_numeric. destruct t as [|x r]; [discriminate|].
  cbn [Text.startswith Text.tail].
  destruct (Ascii.eqb_spec x "-") as [-> | Hx].
  - destruct r as [|c r]; [discriminate|].
    intro H. left. exists c, r. split; [reflexivity|].
    cbn in H. destruct (Ascii.eqb_spec c "-") as [-> | _]; [discriminate H | reflexivity].
  - intros _. right. exists x, r. split; [reflexivity|].
    destruct (Ascii.eqb_spec x "-"); [contradiction | reflexivity].
Qed.

Lemma negative_positive_current (s : calc) :
  current (Quiz04.negative_positive s) =
    if Text.startswith "-" (current s)
    then Text.or_else (Text.tail (current s)) "0"
    else if String.eqb (current s) "0" then "0" else "-" ++ current s.
Proof.
  unfold Quiz04.negative_positive.
  destruct (Text.startswith "-" (current s)); [reflexivity|].
  destruct (String.eqb_spec (current s) "0") as [E | _]; cbn; [exact E | reflexivity].
Qed.

Lemma negative_positive_shown (s : calc) :
  display (Quiz04.negative_positive s) = current (Quiz04.negative_positive s).
Proof. reflexivity. Qed.

Lemma negative_positive_others (s : calc) :
  acc (Quiz04.negative_positive s) = acc s /\
  pending_op (Quiz04.negative_positive s) = pending_op s /\
  just_evaluated (Quiz04.negative_positive s) = just_evaluated s.
Proof.
  unfold Quiz04.negative_positive.
  destruct (Text.startswith "-" (current s)); [repeat split|].
  destruct (String.eqb (current s) "0"); repeat split.
Qed.

(** C9, as stated, fails at the valid numeric text [-0], which the keys
    5 ± × 0 = leave on a new calculator: two presses of the sign key give
    [0], a different text also once leading zeros are normalised, and the
    difference shows afterwards: × 5 = gives [-0] from the first state and
    [0] after the two presses. *)
Lemma C9_counterexample :
  let s := Quiz04.press negative_zero_keys Quiz04.__init__ in
  let s2 := Quiz04.negative_positive (Quiz04.negative_positive s) in
  current s = "-0" /\
  valid_numeric (current s) = true /\
  current s2 = "0" /\
  current s2 <> current s /\
  normalize (current s2) <> normalize (current s) /\
  display (Quiz04.press ["×"; "5"; "="] s) = "-0" /\
  display (Quiz04.press ["×"; "5"; "="] s2) = "0".
Proof. vm_compute. repeat split; discriminate. Qed.

(** C9 (amended): the sign key strips a leading [-] (leaving ["0"] if
    nothing remains) and otherwise prepends one unless the text is ["0"]; on
    a valid numeric text other than ["-0"], two presses of the sign key give
    the text back exactly, and on ["-0"] they give ["0"].  The display
    follows the text and no other field changes. *)
Theorem C9_toggle_sign_twice (s : calc) :
  valid_numeric (current s) = true ->
  let s2 := Quiz04.negative_positive (Quiz04.negative_positive s) in
  current (Quiz04.negative_positive s) =
    (if Text.startswith "-" (current s)
     then Text.or_else (Text.tail (current s)) "0"
     else if String.eqb (current s) "0" then "0" else "-" ++ current s) /\
  current s2 = (if String.eqb (current s) "-0" then "0" else current s) /\
  (current s <> "-0" -> current s2 = current s /\ display s2 = current s) /\
  display s2 = current s2 /\
  (acc s2 = acc s /\ pending_op s2 = pending_op s /\
   just_evaluated s2 = just_evaluated s).
Proof.
  intros Hv s2.
  assert (H : current s2 =
              if String.eqb (current s) "-0" then "0" else current s).
  { unfold s2. rewrite !negative_positive_current.
    destruct (valid_numeric_cases _ Hv) as [(c & r & -> & Hc) | (c & r & -> & Hc)].
    - cbn [Text.startswith Text.tail Text.or_else].
      change (Ascii.eqb "-" "-") with true. cbv iota.
      cbn [Text.startswith Text.tail Text.or_else]. rewrite Hc.
      change (String.eqb (String "-" (String c r)) "-0")
        with (String.eqb (String c r) "0").
      destruct (String.eqb (String c r) "0"); reflexivity.
    - cbn [Text.startswith]. rewrite Hc.
      assert (Hm : String.eqb (String c r) "-0" = false).
      { cbn [String.eqb]. now rewrite Hc. }
      rewrite Hm.
      destruct (String.eqb_spec (String c r) "0") as [-> | Hn].
      + reflexivity.
      + cbn. reflexivity. }
  assert (Hd : display s2 = current s2) by apply negative_positive_shown.
  split; [apply negative_positive_current|].
  split; [exact H|]. split; [|split; [exact Hd|]].
  - intro Hn. rewrite Hd, H.
    destruct (String.eqb_spec (current s) "-0") as [E | _];
      [contradiction | split; reflexivity].
  - unfold s2.
    destruct (negative_positive_others (Quiz04.negative_positive s))
      as (-> & -> & ->).
    apply negative_positive_others.
Qed.

Lemma C9_witness :
  let s := Quiz04.press ["4"; "2"; "."; "5"; "±"] Quiz04.__init__ in
  (valid_numeric (current s) = true /\ current s <> "-0") /\
  current s = "-42.5" /\
  current (Quiz04.negative_positive (Quiz04.negative_positive s)) = "-42.5".
Proof.
  intro s.
  assert (Hn : current s <> "-0") by (vm_compute; discriminate).
  split; [split; [reflexivity | exact Hn]|]. split; [reflexivity|].
  exact (proj1 (proj1 (proj2 (proj2 (C9_toggle_sign_twice s eq_refl))) Hn)).
Defined.

(** ** Angle mode *)

(** C6: a new engine is in degree mode; Sin, Cos and Tan apply the function
    to the operand times pi/180 in degree mode and to the operand itself in
    radian mode; Sinh, Cosh and Tanh apply the function to the operand itself
    in either mode. *)
Theorem C6_angle_mode {M : MathModule} (c : calc) (deg : bool) :
  let v := Quiz06._current_value c in
  let rad := (v * (Quiz06.math_pi / 180))%float in
  Quiz06.is_degree_mode Quiz06.__init__ = true /\
  (Quiz06.sin (Quiz06.mk_eng c true) = written c true (math_sin rad) /\
   Quiz06.cos (Quiz06.mk_eng c true) = written c true (math_cos rad) /\
   Quiz06.tan (Quiz06.mk_eng c true) = written_or_marked c true (math_tan rad)) /\
  (Quiz06.sin (Quiz06.mk_eng c false) = written c false (math_sin v) /\
   Quiz06.cos (Quiz06.mk_eng c false) = written c false (math_cos v) /\
   Quiz06.tan (Quiz06.mk_eng c false) = written_or_marked c false (math_tan v)) /\
  (Quiz06.sinh (Quiz06.mk_eng c deg) = written c deg (math_sinh v) /\
   Quiz06.cosh (Quiz06.mk_eng c deg) = written c deg (math_cosh v) /\
   Quiz06.tanh (Quiz06.mk_eng c deg) = written c deg (math_tanh v)).
Proof.
  intros v rad.
  unfold Quiz06.sin, Quiz06.cos, Quiz06.tan, Quiz06.sinh, Quiz06.cosh,
    Quiz06.tanh, written, written_or_marked, Quiz06._angle, Quiz06.inherited,
    Quiz06.math_radians.
  cbn [Quiz06.base Quiz06.is_degree_mode]. fold v. fold rad.
  repeat split;
    try match goal with
        | |- context [match ?r with Ok _ => _ | Raise _ => _ end] => destruct r
        end;
    reflexivity.
Qed.

(** ** Characters of a text *)

Lemma all_chars_app (P : ascii -> bool) (a b : string) :
  all_chars P (a ++ b) = all_chars P a && all_chars P b.
Proof.
  induction a as [|c a IH]; [reflexivity|].
  cbn. rewrite IH. now rewrite andb_assoc.
Qed.

Lemma all_chars_weaken (P Q : ascii -> bool) (t : string) :
  (forall c, P c = true -> Q c = true) ->
  all_chars P t = true -> all_chars Q t = true.
Proof.
  intro HPQ. induction t as [|c t IH]; [reflexivity|].
  cbn. intro H. apply andb_prop in H as [H1 H2].
  now rewrite (HPQ c H1), (IH H2).
Qed.

Lemma all_chars_substring (P : ascii -> bool) (t : string) (n m : nat) :
  all_chars P t = true -> all_chars P (substring n m t) = true.
Proof.
  revert n m. induction t as [|c t IH]; intros n m H.
  - destruct n, m; reflexivity.
  - cbn in H. apply andb_prop in H as [H1 H2].
    destruct n as [|n]; cbn.
    + destruct m as [|m]; [reflexivity|]. cbn. now rewrite H1, IH.
    + now apply IH.
Qed.

Lemma all_chars_rstrip (P : ascii -> bool) (c : ascii) (t : string) :
  all_chars P t = true -> all_chars P (Text.rstrip_char c t) = true.
Proof.
  induction t as [|x t IH]; [reflexivity|].
  cbn. intro H. apply andb_prop in H as [H1 H2]. specialize (IH H2).
  destruct (Text.rstrip_char c t).
  - destruct (Ascii.eqb x c); cbn; [reflexivity | now rewrite H1].
  - cbn. rewrite H1. exact IH.
Qed.

Lemma all_chars_repeat (P : ascii -> bool) (c : ascii) (n : nat) :
  P c = true -> all_chars P (Text.repeat_char c n) = true.
Proof. intro H. induction n as [|n IH]; cbn; [reflexivity | now rewrite H, IH]. Qed.

Lemma all_chars_contains (P : ascii -> bool) (c : ascii) (t : string) :
  all_chars P t = true -> P c = false -> Text.contains c t = false.
Proof.
  intros H Hc. induction t as [|x t IH]; [reflexivity|].
  cbn in *. apply andb_prop in H as [H1 H2]. rewrite (IH H2).
  destruct (Ascii.eqb_spec x c) as [-> | _]; [congruence | reflexivity].
Qed.

Lemma all_chars_count (P : ascii -> bool) (c : ascii) (t : string) :
  all_chars P t = true -> P c = false -> Text.count c t = 0%nat.
Proof.
  intros H Hc. apply contains_count. now apply (all_chars_contains P).
Qed.

Lemma contains_app (c : ascii) (a b : string) :
  Text.contains c (a ++ b) = Text.contains c a || Text.contains c b.
Proof.
  induction a as [|x a IH]; [reflexivity|].
  cbn. rewrite IH. now rewrite orb_assoc.
Qed.

Lemma uint_digits (d : Decimal.uint) :
  all_chars Text.is_digit (NilEmpty.string_of_uint d) = true.
Proof. induction d; cbn; auto. Qed.

Lemma of_N_digits (n : N) : all_chars Text.is_digit (Text.of_N n) = true.
Proof.
  unfold Text.of_N, NilZero.string_of_uint.
  destruct (N.to_uint n); try reflexivity; apply (uint_digits (_ _)).
Qed.

Lemma span_digits_all (t : string) :
  all_chars Text.is_digit (fst (Text.span_digits t)) = true.
Proof.
  induction t as [|c t IH]; [reflexivity|].
  cbn. destruct (Text.is_digit c) eqn:Hc; [|reflexivity].
  destruct (Text.span_digits t). cbn in *. now rewrite Hc, IH.
Qed.

(** A label accepted by [isdigit] is a non-empty text of digits. *)
Lemma isdigit_spec (d : string) :
  isdigit d = true -> d <> "" /\ all_chars Text.is_digit d = true.
Proof.
  unfold isdigit. destruct d as [|c r]; [discriminate|].
  intro H. apply String.eqb_eq in H. split; [discriminate|].
  rewrite <- H. apply span_digits_all.
Qed.

(** ** The shape of a formatted number *)

Lemma dtoa_digits (n : Z) (m : positive) (e : Z) :
  all_chars Text.is_digit (fst (PyFloat.dtoa n m e)) = true.
Proof.
  unfold PyFloat.dtoa. destruct (PyFloat.exact_decimal m e) as [i j].
  destruct (_ <=? n).
  - apply all_chars_rstrip, of_N_digits.
  - destruct (Z.div_eucl i _) as [q r].
    destruct (_ =? 10 ^ n); [reflexivity|].
    apply all_chars_rstrip, of_N_digits.
Qed.

Lemma digit_numeric (c : ascii) : Text.is_digit c = true -> numeric_char c = true.
Proof. intro H. unfold numeric_char. now rewrite H. Qed.

Lemma digits_numeric (t : string) :
  all_chars Text.is_digit t = true -> all_chars numeric_char t = true.
Proof. apply all_chars_weaken, digit_numeric. Qed.

Lemma digits_no_point (t : string) :
  all_chars Text.is_digit t = true -> Text.count "." t = 0%nat.
Proof. intro H. now apply (all_chars_count Text.is_digit). Qed.

Lemma exponent_text_digits (x : Z) :
  exists c t, PyFloat.exponent_text x = String c t /\
              (c = "-"%char \/ c = "+"%char) /\
              all_chars Text.is_digit t = true.
Proof.
  unfold PyFloat.exponent_text.
  exists (if x <? 0 then "-"%char else "+"%char).
  eexists. split; [reflexivity|].
  split; [destruct (x <? 0); auto|].
  destruct (_ <? 2)%nat; [|apply of_N_digits].
  change (all_chars Text.is_digit (Text.of_N (Z.to_N (Z.abs x))) = true).
  apply of_N_digits.
Qed.

Lemma with_point_chars (ip fp : string) :
  all_chars Text.is_digit ip = true -> all_chars Text.is_digit fp = true ->
  all_chars numeric_char (PyFloat.with_point ip fp) = true /\
  (Text.count "." (PyFloat.with_point ip fp) <= 1)%nat.
Proof.
  intros Hi Hf. unfold PyFloat.with_point.
  destruct fp as [|c fp].
  - split; [now apply digits_numeric|]. rewrite (digits_no_point _ Hi). lia.
  - split.
    + rewrite !all_chars_app, (digits_numeric _ Hi), (digits_numeric _ Hf).
      reflexivity.
    + rewrite !count_app, (digits_no_point _ Hi), (digits_no_point _ Hf).
      cbn. lia.
Qed.

Lemma layout_g_chars (p : Z) (ds : string) (decpt : Z) :
  all_chars Text.is_digit ds = true ->
  all_chars numeric_char (PyFloat.layout_g p ds decpt) = true /\
  (Text.count "." (PyFloat.layout_g p ds decpt) <= 1)%nat.
Proof.
  intro H. unfold PyFloat.layout_g.
  destruct (_ || _); [|destruct (decpt <=? 0); [|destruct (_ <=? decpt)]].
  - destruct (with_point_chars (substring 0 1 ds)
                (substring 1 (String.length ds - 1) ds)) as [H1 H2];
      try now apply all_chars_substring.
    destruct (exponent_text_digits (decpt - 1)) as (c & t & -> & Hc & Ht).
    split.
    + rewrite !all_chars_app, H1. cbn [append all_chars andb].
      rewrite (digits_numeric _ Ht). now destruct Hc as [-> | ->].
    + rewrite !count_app. cbn [append Text.count].
      rewrite (digits_no_point _ Ht). destruct Hc as [-> | ->]; cbn; lia.
  - split.
    + change ("0." ++ Text.repeat_char "0" (Z.to_nat (- decpt)) ++ ds)
        with (String "0" (String "." (Text.repeat_char "0" (Z.to_nat (- decpt)) ++ ds))).
      cbn [all_chars]. rewrite all_chars_app, (digits_numeric _ H).
      rewrite all_chars_repeat by reflexivity. reflexivity.
    + change ("0." ++ Text.repeat_char "0" (Z.to_nat (- decpt)) ++ ds)
        with (String "0" (String "." (Text.repeat_char "0" (Z.to_nat (- decpt)) ++ ds))).
      cbn [Text.count]. rewrite count_app, (digits_no_point _ H).
      rewrite (digits_no_point (Text.repeat_char "0" _))
        by (now apply all_chars_repeat).
      cbn. lia.
  - assert (Hr : all_chars Text.is_digit
                   (ds ++ Text.repeat_char "0"
                            (Z.to_nat (decpt - Z.of_nat (String.length ds)))) = true).
    { rewrite all_chars_app, H. now apply all_chars_repeat. }
    split; [now apply digits_numeric|]. rewrite (digits_no_point _ Hr). lia.
  - apply with_point_chars; now apply all_chars_substring.
Qed.

Lemma layout_g_nonempty (p : Z) (ds : string) (decpt : Z) :
  PyFloat.layout_g p ds decpt <> "".
Proof.
  unfold PyFloat.layout_g.
  destruct (_ || _).
  - destruct (exponent_text_digits (decpt - 1)) as (c & t & -> & _).
    destruct (PyFloat.with_point _ _); discriminate.
  - destruct (decpt <=? 0) eqn:Hd; [discriminate|]. apply Z.leb_gt in Hd.
    destruct (_ <=? decpt) eqn:Hn.
    + destruct ds as [|c r]; [|discriminate].
      cbn. destruct (Z.to_nat (decpt - 0)) eqn:E; [lia | discriminate].
    + apply Z.leb_gt in Hn.
      destruct ds as [|c r]; [cbn in Hn; lia|].
      destruct (Z.to_nat decpt) as [|k] eqn:Hk; [lia|].
      change (substring 0 (S k) (String c r))
        with (String c (substring 0 k r)).
      destruct (with_point_head c (substring 0 k r)
                  (substring (S k) (String.length (String c r) - S k)
                     (String c r))) as [t ->].
      discriminate.
Qed.

Lemma numeric_format (c : ascii) : numeric_char c = true -> format_char c = true.
Proof. intro H. unfold format_char. now rewrite H. Qed.

(** What [.12g] writes: a non-empty text with at most one point, made of
    digits, [.], [-], [+], [e] and, for infinities and NaN, the letters of
    [inf] and [nan]. *)
Lemma format_12g_shape (x : float) :
  PyFloat.format_12g x <> "" /\
  (Text.count "." (PyFloat.format_12g x) <= 1)%nat /\
  all_chars format_char (PyFloat.format_12g x) = true /\
  (is_finite x = true -> all_chars numeric_char (PyFloat.format_12g x) = true).
Proof.
  unfold PyFloat.format_12g, is_finite, Prim2SF.
  destruct (is_nan x); [cbn; repeat split; try discriminate; lia|].
  destruct (is_zero x);
    [destruct (get_sign x); cbn; repeat split; try discriminate; lia|].
  destruct (is_infinity x);
    [destruct (get_sign x); cbn; repeat split; try discriminate; lia|].
  destruct (Z.frexp x) as [r ex]. destruct (shr_fexp _ _ _ _ _) as [sh e'].
  destruct (shr_m sh) as [|m|m]; try (cbn; repeat split; try discriminate; lia).
  pose proof (dtoa_digits 12 m e') as Hd.
  destruct (PyFloat.dtoa 12 m e') as [ds decpt]. cbn [fst] in Hd.
  destruct (layout_g_chars 12 ds decpt Hd) as [Hc Hp].
  pose proof (layout_g_nonempty 12 ds decpt) as Hn.
  destruct (get_sign x).
  - change ("-" ++ PyFloat.layout_g 12 ds decpt)
      with (String "-" (PyFloat.layout_g 12 ds decpt)).
    cbn [all_chars Text.count]. rewrite Hc, (numeric_format "-" eq_refl).
    rewrite (all_chars_weaken _ _ _ numeric_format Hc).
    repeat split; try discriminate. cbn. lia.
  - cbn [append]. rewrite (all_chars_weaken _ _ _ numeric_format Hc).
    repeat split; auto.
Qed.

Lemma format_12g_no_r (x : float) : Text.contains "r" (PyFloat.format_12g x) = false.
Proof.
  destruct (format_12g_shape x) as (_ & _ & H & _).
  now apply (all_chars_contains format_char).
Qed.

(** ** What a Quiz04 session keeps *)

Lemma marker_not_fresh (s : calc) :
  marker_alone s -> fresh_number s = false ->
  Text.contains "r" (current s) = false.
Proof.
  intros Hm Hf. destruct (Text.contains "r" (current s)) eqn:E; [|reflexivity].
  destruct (Hm E) as [-> | ->]; discriminate Hf.
Qed.

Lemma marker_not_pending (s : calc) (p : string) :
  marker_alone s -> pending_op s = Some p ->
  Text.contains "r" (current s) = false.
Proof.
  intros Hm Hp. destruct (Text.contains "r" (current s)) eqn:E; [|reflexivity].
  destruct (Hm E) as [-> | ->]; discriminate Hp.
Qed.

Lemma wf04_cleared : wf04 cleared.
Proof.
  split; [discriminate|]. split; [cbn; lia|]. split; [discriminate|].
  split; [now left | discriminate].
Qed.

Lemma wf04_failed : wf04 failed.
Proof.
  split; [discriminate|]. split; [cbn; lia|]. split; [now left|].
  split; [now left | discriminate].
Qed.

(** A state whose text was just written and shown, and has no [r]. *)
Lemma wf04_written (a : float) (t : string) (p : option string) (j : bool) :
  t <> "" -> (Text.count "." t <= 1)%nat -> Text.contains "r" t = false ->
  (forall q, p = Some q -> is_operator q = true) ->
  wf04 (mk_calc a t p j t).
Proof.
  intros Hn Hc Hr Hp.
  split; [exact Hn|]. split; [exact Hc|].
  split; [intro H; cbn in H; congruence|].
  split; [now left | exact Hp].
Qed.

(** A state right after an operator key. *)
Lemma wf04_operand (a : float) (op : string) (d : string) :
  is_operator op = true -> wf04 (mk_calc a "0" (Some op) false d).
Proof.
  intro Hop.
  split; [discriminate|]. split; [cbn; lia|]. split; [discriminate|].
  split; [right; split; [reflexivity | discriminate]|].
  intros p H. now injection H as <-.
Qed.

Lemma wf04_formatted (x a : float) (p : option string) (j : bool) :
  (forall q, p = Some q -> is_operator q = true) ->
  wf04 (mk_calc a (PyFloat.format_12g x) p j (PyFloat.format_12g x)).
Proof.
  destruct (format_12g_shape x) as (Hn & Hc & _).
  intro Hp. apply wf04_written; auto using format_12g_no_r.
Qed.

Lemma wf04_input_digit (d : string) (s : calc) :
  isdigit d = true -> wf04 s -> wf04 (Quiz04.input_digit d s).
Proof.
  intros Hd (Hn & Hc & Hm & Hf & Hp).
  destruct (isdigit_spec d Hd) as [Hd1 Hd2].
  assert (Hdr : Text.contains "r" d = false)
    by now apply (all_chars_contains Text.is_digit).
  unfold Quiz04.input_digit.
  destruct (just_evaluated s && is_None (pending_op s)) eqn:Hfresh.
  - assert (Hnone : pending_op s = None).
    { destruct (pending_op s); [|reflexivity].
      destruct (just_evaluated s); discriminate Hfresh. }
    cbn. fields. rewrite Hnone. apply wf04_written; auto.
    + rewrite (digits_no_point _ Hd2). lia.
    + discriminate.
  - pose proof (marker_not_fresh s Hm Hfresh) as Hr.
    destruct (String.eqb (current s) "0"); fields.
    + apply wf04_written; auto. rewrite (digits_no_point _ Hd2). lia.
    + apply wf04_written; auto.
      * destruct (current s); [contradiction | discriminate].
      * rewrite count_app, (digits_no_point _ Hd2). lia.
      * now rewrite contains_app, Hr, Hdr.
Qed.

Lemma wf04_input_dot (s : calc) : wf04 s -> wf04 (Quiz04.input_dot s).
Proof.
  intros (Hn & Hc & Hm & Hf & Hp). unfold Quiz04.input_dot.
  destruct (just_evaluated s && is_None (pending_op s)) eqn:Hfresh.
  - assert (Hnone : pending_op s = None).
    { destruct (pending_op s); [|reflexivity].
      destruct (just_evaluated s); discriminate Hfresh. }
    cbn. fields. rewrite Hnone. apply wf04_written; try discriminate; auto.
  - pose proof (marker_not_fresh s Hm Hfresh) as Hr.
    destruct (Text.contains "." (current s)) eqn:Hd; cbn [negb].
    + repeat split; assumption.
    + fields. apply contains_count in Hd. apply wf04_written; auto.
      * destruct (current s); discriminate.
      * rewrite count_app, Hd. destruct (current s); cbn; lia.
      * rewrite contains_app, Hr. now destruct (current s).
Qed.

Lemma tail_count (c : ascii) (t : string) :
  (Text.count c (Text.tail t) <= Text.count c t)%nat.
Proof. destruct t; cbn; lia. Qed.

Lemma wf04_negative_positive (s : calc) :
  wf04 s -> wf04 (Quiz04.negative_positive s).
Proof.
  intros (Hn & Hc & Hm & Hf & Hp).
  destruct (Text.contains "r" (current s)) eqn:Hr.
  - destruct (Hm Hr) as [-> | ->]; cbn.
    + split; [discriminate|]. split; [cbn; lia|]. split; [now right|].
      split; [now left | discriminate].
    + apply wf04_failed.
  - unfold Quiz04.negative_positive.
    destruct (Text.startswith "-" (current s)) eqn:Hs.
    + fields. apply wf04_written; auto.
      * destruct (Text.tail (current s)); discriminate.
      * pose proof (tail_count "." (current s)).
        destruct (Text.tail (current s)) eqn:E; cbn [Text.or_else]; [cbn; lia | lia].
      * destruct (current s) as [|x r]; [discriminate Hs|].
        cbn in Hr. apply orb_false_elim in Hr as [_ Hr].
        cbn [Text.tail]. destruct r; [reflexivity | exact Hr].
    + destruct (String.eqb (current s) "0"); cbn [negb]; fields.
      * apply wf04_written; auto.
      * change ("-" ++ current s) with (String "-" (current s)).
        apply wf04_written; auto; discriminate.
Qed.

Lemma wf04_percent (s : calc) : wf04 s -> wf04 (Quiz04.percent s).
Proof.
  intros (Hn & Hc & Hm & Hf & Hp). unfold Quiz04.percent. fields.
  apply wf04_formatted. exact Hp.
Qed.

Lemma wf04_press_operator (op : string) (s : calc) :
  is_operator op = true -> wf04 s -> wf04 (Quiz04._press_operator op s).
Proof.
  intros Hop (Hn & Hc & Hm & Hf & Hp). unfold Quiz04._press_operator.
  destruct (String.eqb (current s) "Error"); [apply wf04_cleared|].
  destruct (pending_op s) as [p|] eqn:Ep; [|now apply wf04_operand].
  specialize (Hp p Ep).
  destruct (divides_by_zero p (Quiz04._current_value s)) eqn:Hz.
  - unfold divides_by_zero in Hz. apply andb_prop in Hz as [Hd Hz].
    apply String.eqb_eq in Hd. subst p.
    rewrite (apply_pending04_zero s Ep Hz). apply wf04_failed.
  - rewrite (apply_pending04_ok s p Ep Hp Hz). now apply wf04_operand.
Qed.

Lemma wf04_equal (s : calc) : wf04 s -> wf04 (Quiz04.equal s).
Proof.
  intros (Hn & Hc & Hm & Hf & Hp). unfold Quiz04.equal.
  destruct (String.eqb (current s) "Error"); [apply wf04_cleared|].
  destruct (pending_op s) as [p|] eqn:Ep.
  - specialize (Hp p Ep).
    destruct (divides_by_zero p (Quiz04._current_value s)) eqn:Hz.
    + unfold divides_by_zero in Hz. apply andb_prop in Hz as [Hd Hz].
      apply String.eqb_eq in Hd. subst p.
      rewrite (apply_pending04_zero s Ep Hz). apply wf04_failed.
    + rewrite (apply_pending04_ok s p Ep Hp Hz). cbv zeta. fields.
      apply wf04_formatted. intros q H; discriminate H.
  - fields. rewrite Ep. apply wf04_formatted. intros q H; discriminate H.
Qed.

Lemma wf04_on_button (label : string) (s : calc) :
  wf04 s -> wf04 (Quiz04.on_button label s).
Proof.
  intro H. unfold Quiz04.on_button.
  destruct (String.eqb label "AC"); [apply wf04_cleared|].
  destruct (String.eqb label "±"); [now apply wf04_negative_positive|].
  destruct (String.eqb label "%"); [now apply wf04_percent|].
  destruct (String.eqb label PLUS); [now apply wf04_press_operator|].
  destruct (String.eqb label MINUS); [now apply wf04_press_operator|].
  destruct (String.eqb label TIMES); [now apply wf04_press_operator|].
  destruct (String.eqb label DIVIDE); [now apply wf04_press_operator|].
  destruct (String.eqb label "="); [now apply wf04_equal|].
  destruct (String.eqb label "."); [now apply wf04_input_dot|].
  destruct (isdigit label) eqn:Hd; [now apply wf04_input_digit|].
  exact H.
Qed.

Lemma wf04_press (labels : list string) (s : calc) :
  wf04 s -> wf04 (Quiz04.press labels s).
Proof.
  revert s. induction labels as [|l labels IH]; intros s H; [exact H|].
  apply IH, wf04_on_button, H.
Qed.

Lemma wf04_session (labels : list string) :
  wf04 (Quiz04.press labels Quiz04.__init__).
Proof. apply wf04_press, wf04_cleared. Qed.

Ltac pressed :=
  repeat (apply Forall_cons; [cbn; repeat (first [left; reflexivity | right])|]);
  apply Forall_nil.

(** X1: after any sequence of button presses the text of the Quiz04 engine
    is not empty; so the decimal-point key never seeds it with ["0."] for
    want of a text: it starts ["0."] afresh after an evaluation, leaves a
    text that has a point alone, and otherwise appends one point. *)
Theorem X1_text_never_empty (labels : list string) :
  Forall (fun l => In l Quiz04UI.buttons) labels ->
  let s := Quiz04.press labels Quiz04.__init__ in
  current s <> "" /\
  current (Quiz04.input_dot s) =
    (if fresh_number s then "0."
     else if Text.contains "." (current s) then current s
     else current s ++ ".").
Proof.
  intros _ s. destruct (wf04_session labels) as (Hn & _). fold s in Hn.
  split; [exact Hn|].
  unfold Quiz04.input_dot, fresh_number.
  destruct (just_evaluated s && is_None (pending_op s)); [reflexivity|].
  destruct (Text.contains "." (current s)); [reflexivity|].
  cbn. destruct (current s); [contradiction | reflexivity].
Qed.

Lemma X1_witness :
  let labels := ["7"; "÷"; "0"; "="; "±"; "."] in
  Forall (fun l => In l Quiz04UI.buttons) labels /\
  current (Quiz04.press labels Quiz04.__init__) <> "".
Proof.
  intro labels.
  assert (H : Forall (fun l => In l Quiz04UI.buttons) labels) by pressed.
  split; [exact H|]. exact (proj1 (X1_text_never_empty labels H)).
Defined.

(** X2: after any sequence of button presses, digits, operators, percent,
    sign and equals included, the text holds at most one decimal point. *)
Theorem X2_one_point_in_every_session (labels : list string) :
  Forall (fun l => In l Quiz04UI.buttons) labels ->
  (Text.count "." (current (Quiz04.press labels Quiz04.__init__)) <= 1)%nat.
Proof. intros _. now destruct (wf04_session labels) as (_ & H & _). Qed.

Lemma X2_witness :
  let labels := ["1"; "."; "5"; "×"; "."; "."; "2"; "%"; "."; "="; "."] in
  Forall (fun l => In l Quiz04UI.buttons) labels /\
  (Text.count "." (current (Quiz04.press labels Quiz04.__init__)) <= 1)%nat.
Proof.
  intro labels.
  assert (H : Forall (fun l => In l Quiz04UI.buttons) labels) by pressed.
  split; [exact H|]. exact (X2_one_point_in_every_session labels H).
Defined.

(** X3: in a Quiz04 session the error marker is only ever the text of the
    state a division by zero leaves (accumulator 0, no pending operator,
    justEvaluated set, marker displayed); it never stands beside a pending
    operator.  So with a Divide pending and an operand that reads as zero,
    Evaluate and every operator key end in that state, whatever the text. *)
Theorem X3_marker_only_after_division_by_zero (labels : list string) :
  Forall (fun l => In l Quiz04UI.buttons) labels ->
  let s := Quiz04.press labels Quiz04.__init__ in
  (current s = "Error" -> s = failed) /\
  (pending_op s <> None -> current s <> "Error") /\
  (pending_op s = Some DIVIDE ->
   (Quiz04._current_value s =? 0)%float = true ->
   Quiz04.equal s = failed /\
   forall op, Quiz04._press_operator op s = failed).
Proof.
  intros _ s. destruct (wf04_session labels) as (_ & _ & Hm & _). fold s in Hm.
  assert (H1 : current s = "Error" -> s = failed).
  { intro He. destruct (Hm ltac:(now rewrite He)) as [H | H]; [exact H|].
    rewrite H in He. discriminate He. }
  assert (H2 : pending_op s <> None -> current s <> "Error").
  { intros Hp He. apply Hp. now rewrite (H1 He). }
  split; [exact H1|]. split; [exact H2|].
  intros Hp Hz.
  assert (He : current s <> "Error") by (apply H2; rewrite Hp; discriminate).
  unfold Quiz04.equal, Quiz04._press_operator.
  rewrite (eqb_Error_false _ He), Hp, (apply_pending04_zero s Hp Hz).
  split; reflexivity.
Qed.

Lemma X3_witness :
  let labels := ["9"; "÷"; "0"; "+"] in
  Forall (fun l => In l Quiz04UI.buttons) labels /\
  Quiz04.press labels Quiz04.__init__ = failed.
Proof.
  intro labels.
  assert (H : Forall (fun l => In l Quiz04UI.buttons) labels) by pressed.
  split; [exact H|].
  exact (proj1 (X3_marker_only_after_division_by_zero labels H) eq_refl).
Defined.

(** X4: in a Quiz04 session the text last handed to the display callback is
    the engine's text, except right after an operator key, when the text is
    back to ["0"] with the operator pending while the display still shows
    the left operand. *)
Theorem X4_display_follows_text (labels : list string) :
  Forall (fun l => In l Quiz04UI.buttons) labels ->
  let s := Quiz04.press labels Quiz04.__init__ in
  display s = current s \/ (current s = "0" /\ pending_op s <> None).
Proof. intros _. now destruct (wf04_session labels) as (_ & _ & _ & H & _). Qed.

Lemma X4_witness :
  let labels := ["8"; "×"] in
  Forall (fun l => In l Quiz04UI.buttons) labels /\
  current (Quiz04.press labels Quiz04.__init__) = "0" /\
  display (Quiz04.press labels Quiz04.__init__) = "8".
Proof.
  intro labels.
  assert (H : Forall (fun l => In l Quiz04UI.buttons) labels) by pressed.
  split; [exact H|].
  destruct (X4_display_follows_text labels H) as [E | [E _]];
    [discriminate E | split; [exact E | reflexivity]].
Defined.

(** X5: in a Quiz04 session a pending operator is always one of the four
    symbols, so the fold never falls through: it either reports the
    division by zero, leaving the failed state, or stores the result of the
    operation in the accumulator and writes it. *)
Theorem X5_fold_never_falls_through (labels : list string) (p : string) :
  Forall (fun l => In l Quiz04UI.buttons) labels ->
  let s := Quiz04.press labels Quiz04.__init__ in
  pending_op s = Some p ->
  In p [PLUS; MINUS; TIMES; DIVIDE] /\
  (Quiz04._apply_pending s = (Some "error", failed) \/
   let res := binop p (acc s) (Quiz04._current_value s) in
   Quiz04._apply_pending s =
     (None, mk_calc res (PyFloat.format_12g res) (Some p) (just_evaluated s)
                    (PyFloat.format_12g res))).
Proof.
  intros _ s Hp. destruct (wf04_session labels) as (_ & _ & _ & _ & Hk).
  fold s in Hk. specialize (Hk p Hp). split.
  - unfold is_operator in Hk.
    destruct (String.eqb_spec p PLUS) as [-> | _]; [cbn; auto|].
    destruct (String.eqb_spec p MINUS) as [-> | _]; [cbn; auto|].
    destruct (String.eqb_spec p TIMES) as [-> | _]; [cbn; auto|].
    destruct (String.eqb_spec p DIVIDE) as [-> | _]; [cbn; auto|].
    discriminate Hk.
  - destruct (divides_by_zero p (Quiz04._current_value s)) eqn:Hz.
    + left. unfold divides_by_zero in Hz. apply andb_prop in Hz as [Hd Hz].
      apply String.eqb_eq in Hd. subst p. now apply apply_pending04_zero.
    + right. now apply apply_pending04_ok.
Qed.

Lemma X5_witness :
  let labels := ["6"; "−"; "2"] in
  Forall (fun l => In l Quiz04UI.buttons) labels /\
  pending_op (Quiz04.press labels Quiz04.__init__) = Some MINUS /\
  In MINUS [PLUS; MINUS; TIMES; DIVIDE].
Proof.
  intro labels.
  assert (H : Forall (fun l => In l Quiz04UI.buttons) labels) by pressed.
  split; [exact H|]. split; [reflexivity|].
  exact (proj1 (X5_fold_never_falls_through labels MINUS H eq_refl)).
Defined.

(** ** Starting a new number *)

(** After Evaluate the engine either waits for a fresh number or has the
    text ["0"]. *)
Lemma apply_pending04_cases (s : calc) :
  Quiz04._apply_pending s = (Some "error", failed) \/
  Quiz04._apply_pending s = (None, s) \/
  exists res,
    Quiz04._apply_pending s =
      (None, mk_calc res (PyFloat.format_12g res) (pending_op s)
                     (just_evaluated s) (PyFloat.format_12g res)).
Proof.
  unfold Quiz04._apply_pending.
  destruct (pending_op s) as [p|] eqn:Ep; [|auto].
  destruct (String.eqb p PLUS);
    [right; right; eexists; fields; rewrite Ep; reflexivity|].
  destruct (String.eqb p MINUS);
    [right; right; eexists; fields; rewrite Ep; reflexivity|].
  destruct (String.eqb p TIMES);
    [right; right; eexists; fields; rewrite Ep; reflexivity|].
  destruct (String.eqb p DIVIDE); [|auto].
  destruct (_ =? 0)%float; [now left|].
  right; right; eexists; fields; rewrite Ep; reflexivity.
Qed.

Lemma equal04_ready (s : calc) :
  fresh_number (Quiz04.equal s) = true \/ current (Quiz04.equal s) = "0".
Proof.
  unfold Quiz04.equal.
  destruct (String.eqb (current s) "Error"); [now right|].
  destruct (pending_op s) as [p|] eqn:Ep; [|left; fields; now rewrite Ep].
  destruct (apply_pending04_cases s) as [-> | [-> | [res ->]]]; now left.
Qed.

Lemma press_operator04_ready (op : string) (s : calc) :
  fresh_number (Quiz04._press_operator op s) = true \/
  current (Quiz04._press_operator op s) = "0".
Proof.
  unfold Quiz04._press_operator.
  destruct (String.eqb (current s) "Error"); [now right|].
  destruct (pending_op s) as [p|] eqn:Ep; [|now right].
  destruct (apply_pending04_cases s) as [-> | [-> | [res ->]]];
    [now left | now right | now right].
Qed.

Lemma input04_when_ready (d : string) (s : calc) :
  fresh_number s = true \/ current s = "0" ->
  (current (Quiz04.input_digit d s) = d /\
   display (Quiz04.input_digit d s) = d) /\
  (current (Quiz04.input_dot s) = "0." /\
   display (Quiz04.input_dot s) = "0.").
Proof.
  unfold fresh_number, Quiz04.input_digit, Quiz04.input_dot.
  intros [-> | H]; [repeat split|].
  destruct (just_evaluated s && is_None (pending_op s)); [repeat split|].
  rewrite H. repeat split.
Qed.

(** X6: whatever the state, a digit pressed right after Evaluate or right
    after an operator key becomes the whole text, and a decimal point pressed
    there gives ["0."]: the previous text is never extended. *)
Theorem X6_input_after_equal_or_operator (s : calc) (op d : string) :
  (current (Quiz04.input_digit d (Quiz04.equal s)) = d /\
   display (Quiz04.input_digit d (Quiz04.equal s)) = d) /\
  (current (Quiz04.input_dot (Quiz04.equal s)) = "0." /\
   display (Quiz04.input_dot (Quiz04.equal s)) = "0.") /\
  (current (Quiz04.input_digit d (Quiz04._press_operator op s)) = d /\
   display (Quiz04.input_digit d (Quiz04._press_operator op s)) = d) /\
  (current (Quiz04.input_dot (Quiz04._press_operator op s)) = "0." /\
   display (Quiz04.input_dot (Quiz04._press_operator op s)) = "0.").
Proof.
  destruct (input04_when_ready d _ (equal04_ready s)) as [H1 H2].
  destruct (input04_when_ready d _ (press_operator04_ready op s)) as [H3 H4].
  repeat split; tauto.
Qed.

(** ** Typing digits *)

Lemma on_button04_digit (d : string) (s : calc) :
  In d Quiz04UI.digit_labels ->
  Quiz04.on_button d s = Quiz04.input_digit d s /\
  exists c, d = String c "" /\ Text.is_digit c = true.
Proof.
  intro H. cbn in H.
  repeat (destruct H as [<- | H]; [split; [reflexivity | eexists; split; reflexivity]|]).
  contradiction.
Qed.

Lemma lstrip_zeros_length (u : string) :
  (String.length (lstrip_zeros u) <= String.length u)%nat.
Proof.
  induction u as [|a u IH]; [cbn; lia|].
  cbn [lstrip_zeros]. destruct (_ && _); cbn in *; lia.
Qed.

(** A text of digits that its own normal form, and not ["0"], does not begin
    with a zero. *)
Lemma normal_head (x : ascii) (t : string) :
  lstrip_zeros (String x t) = String x t -> String x t <> "0" ->
  all_chars Text.is_digit (String x t) = true ->
  Ascii.eqb x "0" = false.
Proof.
  intros Hl H0 Hd. destruct (Ascii.eqb_spec x "0") as [-> | _]; [|reflexivity].
  destruct t as [|y t]; [contradiction|]. exfalso.
  assert (Hy : Text.is_digit y = true).
  { change (all_chars Text.is_digit (String "0" (String y t)))
      with (Text.is_digit "0" && (Text.is_digit y && all_chars Text.is_digit t))
      in Hd.
    apply andb_prop in Hd as [_ Hd]. now apply andb_prop in Hd as [Hd _]. }
  change (lstrip_zeros (String "0" (String y t)))
    with (if Ascii.eqb "0" "0" && Text.is_digit y
          then lstrip_zeros (String y t) else String "0" (String y t)) in Hl.
  rewrite Hy in Hl. change (Ascii.eqb "0" "0" && true) with true in Hl.
  cbv iota in Hl.
  pose proof (lstrip_zeros_length (String y t)) as Hlen.
  rewrite Hl in Hlen. cbn in Hlen. lia.
Qed.

Lemma lstrip_zeros_app (t : string) (c : ascii) (r : string) :
  lstrip_zeros t = t -> t <> "" -> t <> "0" ->
  all_chars Text.is_digit t = true ->
  lstrip_zeros (t ++ String c r) = t ++ String c r.
Proof.
  intros Hl Hn H0 Hd. destruct t as [|x t]; [contradiction|].
  pose proof (normal_head x t Hl H0 Hd) as Hx.
  cbn [append lstrip_zeros]. now rewrite Hx.
Qed.

Lemma append_empty (t : string) : t ++ "" = t.
Proof. induction t as [|c t IH]; [reflexivity | cbn; now rewrite IH]. Qed.

Lemma append_shift (t : string) (c : ascii) (r : string) :
  (t ++ String c "") ++ r = t ++ String c r.
Proof. induction t as [|x t IH]; [reflexivity | cbn; now rewrite IH]. Qed.

Lemma typing04 (ds : list string) (s : calc) :
  Forall (fun d => In d Quiz04UI.digit_labels) ds ->
  lstrip_zeros (current s) = current s ->
  current s <> "" ->
  all_chars Text.is_digit (current s) = true ->
  fresh_number s = false \/ current s = "0" ->
  current (Quiz04.press ds s) = lstrip_zeros (current s ++ typed_text ds).
Proof.
  intro Hds. revert s. induction Hds as [|d ds Hd Hds IH]; intros s Hl Hn Ha Hf.
  - cbn. now rewrite append_empty, Hl.
  - destruct (on_button04_digit d s Hd) as [Hb (c & -> & Hc)].
    change (Quiz04.press (String c "" :: ds) s)
      with (Quiz04.press ds (Quiz04.on_button (String c "") s)).
    rewrite Hb.
    change (typed_text (String c "" :: ds)) with (String c (typed_text ds)).
    assert (Hstep :
      let s1 := Quiz04.input_digit (String c "") s in
      fresh_number s1 = false /\
      ((current s = "0" /\ current s1 = String c "") \/
       (current s <> "0" /\ current s1 = current s ++ String c ""))).
    { unfold Quiz04.input_digit, fresh_number in *.
      destruct (just_evaluated s && is_None (pending_op s)) eqn:E.
      - destruct Hf as [Hf | Hf]; [discriminate Hf|].
        cbn. split; [reflexivity | left; now split].
      - destruct (String.eqb_spec (current s) "0") as [E0 | E0]; fields;
          (split; [exact E | auto]). }
    destruct Hstep as [Hf1 Hcur]. cbv zeta in *.
    set (s1 := Quiz04.input_digit (String c "") s) in *.
    destruct Hcur as [[E0 E1] | [E0 E1]].
    + rewrite (IH s1); rewrite ?E1; auto.
      * rewrite E0. cbn [append lstrip_zeros].
        change (Ascii.eqb "0" "0") with true. cbn [Text.startswith_digit andb].
        now rewrite Hc.
      * cbn. destruct (Ascii.eqb c "0"); reflexivity.
      * discriminate.
      * cbn. now rewrite Hc.
    + pose proof (lstrip_zeros_app (current s) c "" Hl Hn E0 Ha) as Hl1.
      rewrite (IH s1); rewrite ?E1; auto.
      * now rewrite append_shift.
      * destruct (current s); [contradiction | discriminate].
      * rewrite all_chars_app, Ha. cbn. now rewrite Hc.
Qed.

(** X7: digits typed on the text ["0"] (a new or cleared engine, or the text
    after an operator key) give the digits typed without their leading
    zeros: the text is the number as written, never [007]. *)
Theorem X7_digits_without_leading_zeros (ds : list string) (s : calc) :
  Forall (fun d => In d Quiz04UI.digit_labels) ds ->
  current s = "0" ->
  current (Quiz04.press ds s) = lstrip_zeros ("0" ++ typed_text ds).
Proof.
  intros Hds E. rewrite (typing04 ds s Hds); rewrite ?E; auto.
  discriminate.
Qed.

Lemma X7_witness :
  let ds := ["0"; "0"; "7"; "0"; "5"] in
  (Forall (fun d => In d Quiz04UI.digit_labels) ds /\
   current Quiz04.__init__ = "0") /\
  current (Quiz04.press ds Quiz04.__init__) = "705".
Proof.
  intro ds.
  assert (H : Forall (fun d => In d Quiz04UI.digit_labels) ds) by pressed.
  split; [split; [exact H | reflexivity]|].
  rewrite (X7_digits_without_leading_zeros ds Quiz04.__init__ H eq_refl).
  reflexivity.
Defined.

(** ** Two operator keys in a row *)

Lemma press_operator04_first (p : string) (s : calc) :
  pending_op s = None -> current s <> "Error" ->
  Quiz04._press_operator p s =
    mk_calc (Quiz04._current_value s) "0" (Some p) false (display s).
Proof.
  intros Hp He. unfold Quiz04._press_operator.
  now rewrite (eqb_Error_false _ He), Hp.
Qed.

(** X8: an operator key pressed on a number (no operator pending, no error
    marker) keeps the number as left operand and resets the text to ["0"];
    a second operator key or Evaluate pressed right away does not replace
    the operator but folds it with the operand 0: after [÷] that is a
    division by zero and ends in the failed state, after the other three it
    stores [v + 0], [v - 0] or [v * 0]. *)
Theorem X8_operator_after_operator (s : calc) (p q : string) :
  pending_op s = None ->
  current s <> "Error" ->
  is_operator p = true ->
  let v := Quiz04._current_value s in
  let s1 := Quiz04._press_operator p s in
  let res := binop p v 0 in
  s1 = mk_calc v "0" (Some p) false (display s) /\
  Quiz04._press_operator q s1 =
    (if String.eqb p DIVIDE then failed
     else mk_calc res "0" (Some q) false (PyFloat.format_12g res)) /\
  Quiz04.equal s1 =
    (if String.eqb p DIVIDE then failed
     else mk_calc res (PyFloat.format_12g res) None true
                  (PyFloat.format_12g res)).
Proof.
  intros Hp He Hop v s1 res.
  assert (H1 : s1 = mk_calc v "0" (Some p) false (display s))
    by now apply press_operator04_first.
  split; [exact H1|]. rewrite H1.
  set (t := mk_calc v "0" (Some p) false (display s)).
  assert (Hv : Quiz04._current_value t = 0%float) by reflexivity.
  assert (Ht : pending_op t = Some p) by reflexivity.
  unfold Quiz04._press_operator, Quiz04.equal.
  change (String.eqb (current t) "Error") with false. cbv iota. rewrite Ht.
  destruct (String.eqb_spec p DIVIDE) as [-> | Hd].
  - rewrite (apply_pending04_zero t Ht) by now rewrite Hv. split; reflexivity.
  - rewrite (apply_pending04_ok t p Ht Hop).
    + rewrite Hv. split; reflexivity.
    + unfold divides_by_zero.
      destruct (String.eqb_spec p DIVIDE); [contradiction | reflexivity].
Qed.

Lemma X8_witness :
  let s := Quiz04.press ["5"] Quiz04.__init__ in
  (pending_op s = None /\ current s <> "Error" /\ is_operator TIMES = true) /\
  Quiz04._press_operator PLUS (Quiz04._press_operator TIMES s) =
    mk_calc 0 "0" (Some PLUS) false "0" /\
  Quiz04.equal (Quiz04._press_operator DIVIDE s) = failed.
Proof.
  intro s.
  assert (Hp : pending_op s = None) by reflexivity.
  assert (He : current s <> "Error") by (vm_compute; discriminate).
  split; [repeat split; assumption|].
  destruct (X8_operator_after_operator s TIMES PLUS Hp He eq_refl) as (_ & H & _).
  destruct (X8_operator_after_operator s DIVIDE PLUS Hp He eq_refl) as (_ & _ & H').
  split; [rewrite H; vm_compute; reflexivity | exact H'].
Defined.

(** ** The two versions of the basic engine *)

Lemma set_current_from_value_same (val : float) (s : calc) :
  is_finite val = true ->
  Quiz06._set_current_from_value val s = Quiz04._set_current_from_value val s.
Proof. intro H. now rewrite set_current_from_value06_finite. Qed.

Lemma apply_pending_same (s : calc) :
  (forall p, pending_op s = Some p ->
             is_finite (binop p (acc s) (Quiz04._current_value s)) = true) ->
  Quiz06._apply_pending s = Quiz04._apply_pending s.
Proof.
  intro H. unfold Quiz06._apply_pending, Quiz04._apply_pending.
  destruct (pending_op s) as [p|]; [|reflexivity].
  specialize (H p eq_refl). unfold binop in H.
  change (Quiz06._current_value s) with (Quiz04._current_value s).
  destruct (String.eqb p PLUS);
    [now rewrite set_current_from_value_same|].
  destruct (String.eqb p MINUS);
    [now rewrite set_current_from_value_same|].
  destruct (String.eqb p TIMES);
    [now rewrite set_current_from_value_same|].
  destruct (String.eqb p DIVIDE); [|reflexivity].
  destruct (_ =? 0)%float; [reflexivity|].
  now rewrite set_current_from_value_same.
Qed.

(** X9: the [Calculator] of Quiz06 is the one of Quiz04 except for values
    that are not finite.  Reset, digit, decimal point and sign are the same
    functions; Percent, Evaluate and the operator keys give the same state
    in both whenever the value they would write (the percentage, the text
    read back, the result of the pending operation) is finite. *)
Theorem X9_quiz06_agrees_on_finite_values (s : calc) (op d : string) :
  (Quiz06.reset s = Quiz04.reset s /\
   Quiz06.input_digit d s = Quiz04.input_digit d s /\
   Quiz06.input_dot s = Quiz04.input_dot s /\
   Quiz06.negative_positive s = Quiz04.negative_positive s) /\
  (let v := Quiz04._current_value s in
   is_finite (match pending_op s with
              | Some _ => acc s * (v / 100)
              | None => v / 100
              end) = true ->
   Quiz06.percent s = Quiz04.percent s) /\
  (let v := Quiz04._current_value s in
   is_finite (match pending_op s with
              | Some p => binop p (acc s) v
              | None => v
              end) = true ->
   Quiz06.equal s = Quiz04.equal s /\
   Quiz06._press_operator op s = Quiz04._press_operator op s).
Proof.
  split; [repeat split|]. split.
  - intros v H. unfold Quiz06.percent, Quiz04.percent.
    change (Quiz06._current_value s) with v. fold v. cbv zeta.
    now rewrite set_current_from_value_same.
  - intros v H.
    assert (Ha : Quiz06._apply_pending s = Quiz04._apply_pending s).
    { apply apply_pending_same. intros p Hp. now rewrite Hp in H. }
    unfold Quiz06.equal, Quiz04.equal, Quiz06._press_operator,
      Quiz04._press_operator.
    rewrite Ha. change (Quiz06._current_value s) with v. fold v.
    destruct (String.eqb (current s) "Error"); [split; reflexivity|].
    destruct (pending_op s); [split; reflexivity|].
    now rewrite set_current_from_value_same.
Qed.

Lemma X9_witness :
  let s := Quiz04.press ["8"; "÷"; "3"] Quiz04.__init__ in
  is_finite (binop DIVIDE (acc s) (Quiz04._current_value s)) = true /\
  Quiz06.equal s = Quiz04.equal s /\
  Quiz06.percent s = Quiz04.percent s.
Proof.
  intro s. split; [reflexivity|].
  destruct (X9_quiz06_agrees_on_finite_values s PLUS "1") as (_ & H1 & H2).
  split; [exact (proj1 (H2 eq_refl)) | exact (H1 eq_refl)].
Defined.

(** ** The scientific keys *)

(** X10: InsertPi, Square, Cube, Sin, Cos, Tan, Sinh, Cosh and Tanh, when
    they return, change nothing but the text and the display, which shows
    the new text: the accumulator, the pending operator, justEvaluated and
    the angle mode are as before, whatever the [math] module does.  So in
    [5 + sin] only the right operand is transformed. *)
Theorem X10_scientific_keys_touch_only_the_text {M : MathModule}
    (c : Session06.call) (e e' : Quiz06.eng) :
  In c unary_calls ->
  Session06.perform c e = Ok e' ->
  acc (Quiz06.base e') = acc (Quiz06.base e) /\
  pending_op (Quiz06.base e') = pending_op (Quiz06.base e) /\
  just_evaluated (Quiz06.base e') = just_evaluated (Quiz06.base e) /\
  Quiz06.is_degree_mode e' = Quiz06.is_degree_mode e /\
  display (Quiz06.base e') = current (Quiz06.base e').
Proof.
  intros Hc H. cbn in Hc.
  repeat (destruct Hc as [<- | Hc]; [revert H; cbn [Session06.perform]|]);
    try contradiction;
    unfold Quiz06.insert_pi, Quiz06.square, Quiz06.cube, Quiz06.sin,
      Quiz06.cos, Quiz06.tan, Quiz06.sinh, Quiz06.cosh, Quiz06.tanh;
    try match goal with
        | |- context [match ?r with Ok _ => _ | Raise _ => _ end] =>
            destruct r
        end;
    intro H; try discriminate H; injection H as <-; repeat split.
Qed.

Lemma X10_witness :
  let e := Quiz06.inherited Quiz06.add
             (Quiz06.inherited (Quiz06.input_digit "5") Quiz06.__init__) in
  In Session06.Square unary_calls /\
  @Session06.perform raising_math Session06.Square e = Ok (Quiz06.square e) /\
  pending_op (Quiz06.base (Quiz06.square e)) = Some PLUS.
Proof.
  intro e.
  assert (Hc : In Session06.Square unary_calls) by (cbn; tauto).
  split; [exact Hc|]. split; [reflexivity|].
  destruct (@X10_scientific_keys_touch_only_the_text raising_math
              Session06.Square e (Quiz06.square e) Hc eq_refl)
    as (_ & H & _).
  rewrite H. reflexivity.
Defined.

(** X11: InsertPi replaces the text by [3.14159265359] in every state,
    without starting a new number: a digit typed next is appended to it
    (giving [3.141592653595] for the digit 5) unless the engine was waiting
    for a fresh number, in which case the digit replaces it. *)
Theorem X11_pi_overwrites_and_digits_append (e : Quiz06.eng) (d : string) :
  let e1 := Quiz06.insert_pi e in
  current (Quiz06.base e1) = "3.14159265359" /\
  display (Quiz06.base e1) = "3.14159265359" /\
  fresh_number (Quiz06.base e1) = fresh_number (Quiz06.base e) /\
  current (Quiz06.base (Quiz06.inherited (Quiz06.input_digit d) e1)) =
    (if fresh_number (Quiz06.base e) then d else "3.14159265359" ++ d).
Proof.
  intro e1.
  assert (H : Quiz06.base e1 =
              mk_calc (acc (Quiz06.base e)) "3.14159265359"
                      (pending_op (Quiz06.base e))
                      (just_evaluated (Quiz06.base e)) "3.14159265359")
    by reflexivity.
  unfold Quiz06.inherited. cbn [Quiz06.base]. rewrite H.
  repeat split. unfold Quiz06.input_digit, fresh_number.
  cbn [just_evaluated pending_op].
  now destruct (just_evaluated (Quiz06.base e)
                && is_None (pending_op (Quiz06.base e))).
Qed.

(** ** What a Quiz06 session keeps *)

Lemma numeric_char06 (c : ascii) : numeric_char c = true -> char06 c = true.
Proof. intro H. unfold char06. now rewrite H. Qed.

Lemma digit_char06 (c : ascii) : Text.is_digit c = true -> char06 c = true.
Proof. intro H. now apply numeric_char06, digit_numeric. Qed.

Lemma text_ok_zero : text_ok "0".
Proof. split; [discriminate|]. split; [cbn; lia | reflexivity]. Qed.

Lemma text_ok_marker : text_ok "Error".
Proof. split; [discriminate|]. split; [cbn; lia | reflexivity]. Qed.

Lemma text_ok_written (val : float) (s : calc) :
  text_ok (current (Quiz06._set_current_from_value val s)).
Proof.
  unfold Quiz06._set_current_from_value, Quiz06.math_isfinite.
  destruct (is_finite val) eqn:Hf; fields; [|apply text_ok_marker].
  destruct (format_12g_shape val) as (Hn & Hc & _ & Ha).
  split; [exact Hn|]. split; [exact Hc|].
  apply (all_chars_weaken numeric_char); [exact numeric_char06 | auto].
Qed.

Lemma text_ok_digits (d : string) : isdigit d = true -> text_ok d.
Proof.
  intro H. destruct (isdigit_spec d H) as [Hn Ha].
  split; [exact Hn|]. split; [rewrite (digits_no_point _ Ha); lia|].
  now apply (all_chars_weaken Text.is_digit); [exact digit_char06|].
Qed.

Lemma text_ok_app_digits (t d : string) :
  text_ok t -> isdigit d = true -> text_ok (t ++ d).
Proof.
  intros (Hn & Hc & Ha) H. destruct (text_ok_digits d H) as (_ & Hc' & Ha').
  destruct (isdigit_spec d H) as [_ Hd].
  split; [destruct t; [contradiction | discriminate]|].
  split; [rewrite count_app, (digits_no_point _ Hd); lia|].
  now rewrite all_chars_app, Ha, Ha'.
Qed.

Lemma text_ok_app_point (t : string) :
  text_ok t -> Text.contains "." t = false -> text_ok (t ++ ".").
Proof.
  intros (Hn & Hc & Ha) H. apply contains_count in H.
  split; [destruct t; [contradiction | discriminate]|].
  split; [rewrite count_app, H; cbn; lia|].
  now rewrite all_chars_app, Ha.
Qed.

Lemma text_ok_tail (t : string) : text_ok t -> text_ok (Text.or_else (Text.tail t) "0").
Proof.
  intros (Hn & Hc & Ha). destruct t as [|c [|x r]]; try apply text_ok_zero.
  cbn [Text.tail Text.or_else]. cbn in Hc, Ha.
  apply andb_prop in Ha as [_ Ha].
  split; [discriminate|]. split; [cbn; lia | exact Ha].
Qed.

Lemma text_ok_minus (t : string) : text_ok t -> text_ok ("-" ++ t).
Proof.
  intros (Hn & Hc & Ha). split; [discriminate|]. split; [exact Hc | exact Ha].
Qed.

Lemma wf06_input_digit (d : string) (s : calc) :
  isdigit d = true -> text_ok (current s) ->
  text_ok (current (Quiz06.input_digit d s)).
Proof.
  intros Hd H. unfold Quiz06.input_digit.
  destruct (just_evaluated s && is_None (pending_op s));
    [cbn; now apply text_ok_digits|].
  destruct (String.eqb (current s) "0"); fields;
    [now apply text_ok_digits | now apply text_ok_app_digits].
Qed.

Lemma wf06_input_dot (s : calc) :
  text_ok (current s) -> text_ok (current (Quiz06.input_dot s)).
Proof.
  intro H. unfold Quiz06.input_dot.
  destruct (just_evaluated s && is_None (pending_op s));
    [cbn; split; [discriminate | split; [cbn; lia | reflexivity]]|].
  destruct (Text.contains "." (current s)) eqn:Hd; cbn [negb]; [exact H|].
  fields. destruct (current s) eqn:E; [destruct H as [H _]; contradiction|].
  rewrite <- E in *. now apply text_ok_app_point.
Qed.

Lemma wf06_negative_positive (s : calc) :
  text_ok (current s) -> text_ok (current (Quiz06.negative_positive s)).
Proof.
  intro H. unfold Quiz06.negative_positive.
  destruct (Text.startswith "-" (current s)); fields;
    [now apply text_ok_tail|].
  destruct (String.eqb (current s) "0"); cbn [negb]; fields;
    [exact H | now apply text_ok_minus].
Qed.

Lemma apply_pending06_cases (s : calc) :
  Quiz06._apply_pending s = (Some "error", failed) \/
  Quiz06._apply_pending s = (None, s) \/
  exists res,
    Quiz06._apply_pending s =
      (None, Quiz06._set_current_from_value res (set_acc res s)).
Proof.
  unfold Quiz06._apply_pending.
  destruct (pending_op s) as [p|] eqn:Ep; [|auto].
  destruct (String.eqb p PLUS); [right; right; eexists; reflexivity|].
  destruct (String.eqb p MINUS); [right; right; eexists; reflexivity|].
  destruct (String.eqb p TIMES); [right; right; eexists; reflexivity|].
  destruct (String.eqb p DIVIDE); [|auto].
  destruct (_ =? 0)%float; [now left|].
  right; right; eexists; reflexivity.
Qed.

Lemma wf06_press_operator (op : string) (s : calc) :
  text_ok (current s) -> text_ok (current (Quiz06._press_operator op s)).
Proof.
  intro H. unfold Quiz06._press_operator.
  destruct (String.eqb (current s) "Error"); [apply text_ok_zero|].
  destruct (pending_op s); [|apply text_ok_zero].
  destruct (apply_pending06_cases s) as [-> | [-> | [res ->]]];
    [apply text_ok_marker | apply text_ok_zero | apply text_ok_zero].
Qed.

Lemma wf06_equal (s : calc) :
  text_ok (current s) -> text_ok (current (Quiz06.equal s)).
Proof.
  intro H. unfold Quiz06.equal.
  destruct (String.eqb (current s) "Error"); [apply text_ok_zero|].
  destruct (pending_op s).
  - destruct (apply_pending06_cases s) as [-> | [-> | [res ->]]];
      [apply text_ok_marker | exact H | apply text_ok_written].
  - apply text_ok_written.
Qed.

Lemma format_pi : PyFloat.format_12g Quiz06.math_pi = "3.14159265359".
Proof. vm_compute. reflexivity. Qed.

Lemma text_ok_pi : text_ok "3.14159265359".
Proof. split; [discriminate|]. split; [cbn; lia | reflexivity]. Qed.

(** A scientific method without a handler: when it returns, it has written
    the value through the formatting rule. *)
Lemma wf06_written_result (r : result float) (e e' : Quiz06.eng) :
  match r with
  | Ok y => Ok (Quiz06.inherited (Quiz06._set_current_from_value y) e)
  | Raise x => Raise x
  end = Ok e' ->
  text_ok (current (Quiz06.base e')).
Proof.
  destruct r as [y|x]; intro H; [|discriminate H].
  injection H as <-. apply text_ok_written.
Qed.

Lemma wf06_tan {M : MathModule} (e e' : Quiz06.eng) :
  Quiz06.tan e = Ok e' -> text_ok (current (Quiz06.base e')).
Proof.
  unfold Quiz06.tan. destruct (math_tan _) as [y|x]; intro H;
    injection H as <-; [apply text_ok_written | apply text_ok_marker].
Qed.

Lemma wf06_perform {M : MathModule} (c : Session06.call) (e e' : Quiz06.eng) :
  Session06.digits_only c ->
  Session06.perform c e = Ok e' ->
  text_ok (current (Quiz06.base e)) -> text_ok (current (Quiz06.base e')).
Proof.
  intros Hd H Hok. destruct c; cbn [Session06.perform] in H.
  - injection H as <-. apply text_ok_zero.
  - injection H as <-. now apply wf06_input_digit.
  - injection H as <-. now apply wf06_input_dot.
  - injection H as <-. now apply wf06_negative_positive.
  - injection H as <-. apply text_ok_written.
  - injection H as <-. now apply wf06_press_operator.
  - injection H as <-. now apply wf06_press_operator.
  - injection H as <-. now apply wf06_press_operator.
  - injection H as <-. now apply wf06_press_operator.
  - injection H as <-. now apply wf06_equal.
  - injection H as <-. unfold Quiz06.insert_pi, Quiz06.inherited.
    cbn [Quiz06.base]. fields. rewrite format_pi. apply text_ok_pi.
  - injection H as <-. apply text_ok_written.
  - injection H as <-. apply text_ok_written.
  - exact (wf06_written_result _ e e' H).
  - exact (wf06_written_result _ e e' H).
  - exact (wf06_tan e e' H).
  - exact (wf06_written_result _ e e' H).
  - exact (wf06_written_result _ e e' H).
  - exact (wf06_written_result _ e e' H).
  - injection H as <-. exact Hok.
  - injection H as <-. exact Hok.
Qed.

Lemma wf06_session {M : MathModule} (cs : list Session06.call)
    (e e' : Quiz06.eng) :
  Forall Session06.digits_only cs ->
  Session06.session cs e = Ok e' ->
  text_ok (current (Quiz06.base e)) -> text_ok (current (Quiz06.base e')).
Proof.
  intro Hcs. revert e. induction Hcs as [|c cs Hc Hcs IH]; intros e H Hok.
  - now injection H as <-.
  - cbn [Session06.session] in H.
    destruct (Session06.perform c e) as [e1|x] eqn:E; [|discriminate H].
    apply (IH e1 H). now apply (wf06_perform c e).
Qed.

(** X12: in a Quiz06 session the text never holds the letters of [inf] and
    [nan]: whatever the calls (with digits as arguments of [input_digit])
    and whatever the [math] module returns, every character of the text is
    a digit, one of [. - + e] or a letter of the error marker.  No path
    writes a value that is not finite as a number. *)
Theorem X12_quiz06_never_writes_inf_or_nan {M : MathModule}
    (cs : list Session06.call) (e' : Quiz06.eng) :
  Forall Session06.digits_only cs ->
  Session06.session cs Quiz06.__init__ = Ok e' ->
  let t := current (Quiz06.base e') in
  all_chars char06 t = true /\
  Text.contains "n" t = false /\ Text.contains "i" t = false /\
  t <> "inf" /\ t <> "-inf" /\ t <> "nan".
Proof.
  intros Hcs H t.
  assert (Ha : all_chars char06 t = true).
  { apply (wf06_session cs Quiz06.__init__ e' Hcs H). apply text_ok_zero. }
  assert (Hn : Text.contains "n" t = false)
    by now apply (all_chars_contains char06).
  assert (Hi : Text.contains "i" t = false)
    by now apply (all_chars_contains char06).
  repeat split; auto; intro E; rewrite E in Hn; discriminate Hn.
Qed.

Lemma X12_witness :
  Forall Session06.digits_only overflow_calls /\
  @Session06.session raising_math overflow_calls Quiz06.__init__ =
    Ok (Quiz06.mk_eng (mk_calc 0 "Error" None false "Error") true) /\
  Text.contains "n" "Error" = false.
Proof.
  assert (Hd : Forall Session06.digits_only overflow_calls)
    by (repeat constructor).
  assert (Hs : @Session06.session raising_math overflow_calls Quiz06.__init__ =
               Ok (Quiz06.mk_eng (mk_calc 0 "Error" None false "Error") true))
    by (vm_compute; reflexivity).
  split; [exact Hd|]. split; [exact Hs|].
  exact (proj1 (proj2 (@X12_quiz06_never_writes_inf_or_nan raising_math
                         overflow_calls _ Hd Hs))).
Defined.

(** X13: in a Quiz06 session, scientific calls included, the text is never
    empty and never holds more than one decimal point. *)
Theorem X13_quiz06_text_well_formed {M : MathModule}
    (cs : list Session06.call) (e' : Quiz06.eng) :
  Forall Session06.digits_only cs ->
  Session06.session cs Quiz06.__init__ = Ok e' ->
  current (Quiz06.base e') <> "" /\
  (Text.count "." (current (Quiz06.base e')) <= 1)%nat.
Proof.
  intros Hcs H.
  destruct (wf06_session cs Quiz06.__init__ e' Hcs H text_ok_zero)
    as (Hn & Hc & _).
  now split.
Qed.

Lemma X13_witness :
  let cs := [Session06.InsertPi; Session06.InputDot; Session06.InputDigit "5";
             Session06.NegativePositive; Session06.InputDot] in
  Forall Session06.digits_only cs /\
  @Session06.session raising_math cs Quiz06.__init__ =
    Ok (Quiz06.mk_eng (mk_calc 0 "-3.141592653595" None false "-3.141592653595")
                      true) /\
  (Text.count "." "-3.141592653595" <= 1)%nat.
Proof.
  intro cs.
  assert (Hd : Forall Session06.digits_only cs) by (repeat constructor).
  assert (Hs : @Session06.session raising_math cs Quiz06.__init__ =
               Ok (Quiz06.mk_eng (mk_calc 0 "-3.141592653595" None false
                                          "-3.141592653595") true))
    by (vm_compute; reflexivity).
  split; [exact Hd|]. split; [exact Hs|].
  exact (proj2 (@X13_quiz06_text_well_formed raising_math cs _ Hd Hs)).
Defined.

(** ** A text that does not read as a number *)

(** X14: a text that [float] cannot read, other than the error marker, is
    taken as 0 without any notice.  With no operator pending Evaluate and
    Percent show 0; with a Divide pending Evaluate is a division by zero;
    with another operator pending the fold uses the operand 0. *)
Theorem X14_unreadable_text_counts_as_zero (s : calc) :
  PyFloat.of_string (current s) = None ->
  current s <> "Error" ->
  (pending_op s = None ->
   Quiz04.equal s = mk_calc (acc s) "0" None true "0" /\
   Quiz04.percent s = mk_calc (acc s) "0" None (just_evaluated s) "0") /\
  (pending_op s = Some DIVIDE -> Quiz04.equal s = failed) /\
  (forall p, pending_op s = Some p -> is_operator p = true ->
             String.eqb p DIVIDE = false ->
             acc (Quiz04.equal s) = binop p (acc s) 0).
Proof.
  intros Hr He.
  assert (Hv : Quiz04._current_value s = 0%float)
    by (unfold Quiz04._current_value; now rewrite Hr).
  split; [|split].
  - intro Hp. unfold Quiz04.equal, Quiz04.percent.
    rewrite (eqb_Error_false _ He), Hp, Hv. fields. rewrite Hp.
    split; reflexivity.
  - intro Hp. unfold Quiz04.equal.
    rewrite (eqb_Error_false _ He), Hp.
    rewrite (apply_pending04_zero s Hp) by now rewrite Hv.
    reflexivity.
  - intros p Hp Hop Hd. unfold Quiz04.equal.
    rewrite (eqb_Error_false _ He), Hp.
    rewrite (apply_pending04_ok s p Hp Hop)
      by (unfold divides_by_zero; now rewrite Hd).
    now rewrite Hv.
Qed.

Lemma X14_witness :
  let s := Quiz04.press (small_percent_keys ++ ["."]) Quiz04.__init__ in
  (current s = "1e-07." /\ PyFloat.of_string (current s) = None /\
   pending_op s = None) /\
  Quiz04.equal s = mk_calc 0 "0" None true "0".
Proof.
  intro s.
  assert (Hr : PyFloat.of_string (current s) = None) by reflexivity.
  assert (He : current s <> "Error") by (vm_compute; discriminate).
  split; [repeat split|].
  destruct (X14_unreadable_text_counts_as_zero s Hr He) as [H _].
  exact (proj1 (H eq_refl)).
Defined.

(** ** justEvaluated and the pending operator *)

Lemma evaluated_alone_inputs (d : string) (s : calc) :
  evaluated_alone s ->
  evaluated_alone (Quiz04.input_digit d s) /\
  evaluated_alone (Quiz04.input_dot s) /\
  evaluated_alone (Quiz04.negative_positive s) /\
  evaluated_alone (Quiz04.percent s).
Proof.
  destruct s as [a c p j dsp].
  unfold evaluated_alone, Quiz04.input_digit, Quiz04.input_dot,
    Quiz04.negative_positive, Quiz04.percent.
  cbn [just_evaluated pending_op current]. intro H.
  repeat split;
    repeat match goal with
           | |- context [if ?b then _ else _] => destruct b
           end;
    fields; cbn; try discriminate; auto.
Qed.

Lemma evaluated_alone_operator (op : string) (s : calc) :
  evaluated_alone (Quiz04._press_operator op s) /\
  evaluated_alone (Quiz04.equal s).
Proof.
  unfold Quiz04._press_operator, Quiz04.equal.
  destruct (String.eqb (current s) "Error"); [split; discriminate|].
  destruct (pending_op s) as [p|] eqn:Ep.
  - destruct (apply_pending04_cases s) as [-> | [-> | [res ->]]];
      split; intro H; try reflexivity; try discriminate H.
  - split; [discriminate|]. intros _. fields. exact Ep.
Qed.

Lemma evaluated_alone04 (label : string) (s : calc) :
  evaluated_alone s -> evaluated_alone (Quiz04.on_button label s).
Proof.
  intro H. destruct (evaluated_alone_inputs label s H) as (H1 & H2 & H3 & H4).
  unfold Quiz04.on_button, Quiz04.add, Quiz04.subtract, Quiz04.multiply,
    Quiz04.divide.
  destruct (String.eqb label "AC"); [discriminate|].
  destruct (String.eqb label "±"); [exact H3|].
  destruct (String.eqb label "%"); [exact H4|].
  destruct (String.eqb label PLUS); [apply evaluated_alone_operator|].
  destruct (String.eqb label MINUS); [apply evaluated_alone_operator|].
  destruct (String.eqb label TIMES); [apply evaluated_alone_operator|].
  destruct (String.eqb label DIVIDE); [apply evaluated_alone_operator|].
  destruct (String.eqb label "="); [apply (evaluated_alone_operator "")|].
  destruct (String.eqb label "."); [exact H2|].
  destruct (isdigit label); [exact H1 | exact H].
Qed.

Lemma evaluated_alone04_press (labels : list string) (s : calc) :
  evaluated_alone s -> evaluated_alone (Quiz04.press labels s).
Proof.
  revert s. induction labels as [|l labels IH]; intros s H; [exact H|].
  apply IH, evaluated_alone04, H.
Qed.

(** X15: in a Quiz04 session justEvaluated is only ever set while no
    operator is pending; the fresh-number test of the digit and decimal-point
    keys, [just_evaluated and pending_op is None], is therefore decided by
    justEvaluated alone. *)
Theorem X15_evaluated_only_without_operator (labels : list string) :
  Forall (fun l => In l Quiz04UI.buttons) labels ->
  let s := Quiz04.press labels Quiz04.__init__ in
  (just_evaluated s = true -> pending_op s = None) /\
  fresh_number s = just_evaluated s.
Proof.
  intros _ s.
  assert (H : evaluated_alone s)
    by (apply evaluated_alone04_press; intros _; reflexivity).
  split; [exact H|]. unfold fresh_number, evaluated_alone in *.
  destruct (just_evaluated s); [|reflexivity].
  rewrite H by reflexivity. reflexivity.
Qed.

Lemma X15_witness :
  let labels := ["3"; "+"; "4"; "="; "×"] in
  Forall (fun l => In l Quiz04UI.buttons) labels /\
  fresh_number (Quiz04.press labels Quiz04.__init__) = false.
Proof.
  intro labels.
  assert (H : Forall (fun l => In l Quiz04UI.buttons) labels) by pressed.
  split; [exact H|].
  rewrite (proj2 (X15_evaluated_only_without_operator labels H)).
  reflexivity.
Defined.

(** ** The buttons of Quiz04 *)

Ltac pick :=
  first [ split; [reflexivity | reflexivity]
        | split; [cbn; tauto | reflexivity]
        | left; pick
        | right; pick ].

(** X16: every button that [build_ui] creates reaches an engine method:
    none falls to the "ignore" end of [on_button].  The four operator
    buttons carry the very symbols the fold compares with, and the ten digit
    buttons pass their own label to [input_digit]. *)
Theorem X16_every_button_is_wired (l : string) (s : calc) :
  In l Quiz04UI.buttons ->
  (l = "AC" /\ Quiz04.on_button l s = Quiz04.reset s) \/
  (l = "±" /\ Quiz04.on_button l s = Quiz04.negative_positive s) \/
  (l = "%" /\ Quiz04.on_button l s = Quiz04.percent s) \/
  (is_operator l = true /\ Quiz04.on_button l s = Quiz04._press_operator l s) \/
  (l = "=" /\ Quiz04.on_button l s = Quiz04.equal s) \/
  (l = "." /\ Quiz04.on_button l s = Quiz04.input_dot s) \/
  (In l Quiz04UI.digit_labels /\ Quiz04.on_button l s = Quiz04.input_digit l s).
Proof.
  intro H. cbn in H.
  repeat (destruct H as [<- | H]; [pick|]). contradiction.
Qed.

Lemma X16_witness :
  In "−" Quiz04UI.buttons /\
  Quiz04.on_button "−" cleared = Quiz04._press_operator MINUS cleared.
Proof.
  assert (H : In "−" Quiz04UI.buttons) by (cbn; tauto).
  split; [exact H|].
  destruct (X16_every_button_is_wired "−" cleared H)
    as [[E _] | [[E _] | [[E _] | [[_ E] | [[E _] | [[E _] | [E _]]]]]]];
    try discriminate E; [exact E|].
  cbn in E. repeat (destruct E as [E | E]; [discriminate E|]). contradiction.
Defined.

(** ** The angle mode *)

Lemma perform_mode {M : MathModule} (c : Session06.call) (e e' : Quiz06.eng) :
  Session06.perform c e = Ok e' ->
  Quiz06.is_degree_mode e' = mode_after [c] (Quiz06.is_degree_mode e).
Proof.
  destruct c; cbn [Session06.perform mode_after fold_left];
    unfold Quiz06.sin, Quiz06.cos, Quiz06.tan, Quiz06.sinh, Quiz06.cosh,
      Quiz06.tanh;
    try match goal with
        | |- context [match ?r with Ok _ => _ | Raise _ => _ end] => destruct r
        end;
    intro H; try discriminate H; injection H as <-; reflexivity.
Qed.

(** X17: after a Quiz06 session the angle mode is the one of the last
    [set_deg] or [set_rad] call, degrees if there was none: no other method
    touches it, and [reset] in particular does not put it back to degrees. *)
Theorem X17_angle_mode_survives_reset {M : MathModule}
    (cs : list Session06.call) (e e' : Quiz06.eng) :
  Session06.session cs e = Ok e' ->
  Quiz06.is_degree_mode e' = mode_after cs (Quiz06.is_degree_mode e) /\
  Quiz06.is_degree_mode (Quiz06.inherited Quiz06.reset e') =
    Quiz06.is_degree_mode e'.
Proof.
  intro H. split; [|reflexivity].
  revert e H. induction cs as [|c cs IH]; intros e H.
  - now injection H as <-.
  - cbn [Session06.session] in H.
    destruct (Session06.perform c e) as [e1|x] eqn:E; [|discriminate H].
    rewrite (IH e1 H), (perform_mode c e e1 E). reflexivity.
Qed.

Lemma X17_witness :
  let cs := [Session06.SetRad; Session06.InputDigit "9"; Session06.Reset] in
  @Session06.session raising_math cs Quiz06.__init__ =
    Ok (Quiz06.mk_eng cleared false) /\
  Quiz06.is_degree_mode (Quiz06.mk_eng cleared false) = false.
Proof.
  intro cs.
  assert (Hs : @Session06.session raising_math cs Quiz06.__init__ =
               Ok (Quiz06.mk_eng cleared false)) by reflexivity.
  split; [exact Hs|].
  rewrite (proj1 (@X17_angle_mode_survives_reset raising_math cs _ _ Hs)).
  reflexivity.
Defined.

(** ** Chains of operators *)

Lemma press04_app (l1 l2 : list string) (s : calc) :
  Quiz04.press (l1 ++ l2) s = Quiz04.press l2 (Quiz04.press l1 s).
Proof. apply fold_left_app. Qed.

Lemma calc_eta (s : calc) :
  s = mk_calc (acc s) (current s) (pending_op s) (just_evaluated s) (display s).
Proof. now destruct s. Qed.

Lemma typing04_frame (ds : list string) (s : calc) :
  digit_keys ds -> fresh_number s = false ->
  acc (Quiz04.press ds s) = acc s /\
  pending_op (Quiz04.press ds s) = pending_op s /\
  just_evaluated (Quiz04.press ds s) = just_evaluated s /\
  (ds <> [] -> display (Quiz04.press ds s) = current (Quiz04.press ds s)).
Proof.
  intro Hds. revert s. induction Hds as [|d ds Hd Hds IH]; intros s Hf.
  - repeat split. intro H. contradiction.
  - destruct (on_button04_digit d s Hd) as [Hb _].
    change (Quiz04.press (d :: ds) s)
      with (Quiz04.press ds (Quiz04.on_button d s)).
    rewrite Hb.
    assert (Hs : acc (Quiz04.input_digit d s) = acc s /\
                 pending_op (Quiz04.input_digit d s) = pending_op s /\
                 just_evaluated (Quiz04.input_digit d s) = just_evaluated s /\
                 display (Quiz04.input_digit d s) =
                   current (Quiz04.input_digit d s)).
    { unfold fresh_number, Quiz04.input_digit in *. rewrite Hf.
      destruct (String.eqb (current s) "0"); repeat split. }
    destruct Hs as (Ha & Hp & Hj & Hdsp).
    assert (Hf1 : fresh_number (Quiz04.input_digit d s) = false)
      by (unfold fresh_number in *; now rewrite Hj, Hp).
    destruct (IH _ Hf1) as (Ha' & Hp' & Hj' & Hd').
    rewrite Ha', Hp', Hj', Ha, Hp, Hj. repeat split.
    intros _. destruct ds as [|d' ds]; [exact Hdsp|].
    apply Hd'. discriminate.
Qed.

Lemma lstrip_zeros_digits (t : string) :
  all_chars Text.is_digit t = true ->
  all_chars Text.is_digit (lstrip_zeros t) = true.
Proof.
  induction t as [|c t IH]; [reflexivity|].
  intro H. cbn [lstrip_zeros]. destruct (_ && _); [|exact H].
  apply IH. cbn in H. now apply andb_prop in H as [_ H].
Qed.

Lemma typed_text_digits (ds : list string) :
  digit_keys ds -> all_chars Text.is_digit (typed_text ds) = true.
Proof.
  induction 1 as [|d ds Hd Hds IH]; [reflexivity|].
  destruct (on_button04_digit d cleared Hd) as [_ (c & -> & Hc)].
  cbn. now rewrite Hc.
Qed.

Lemma typed_number_not_marker (ds : list string) :
  digit_keys ds -> typed_number ds <> "Error".
Proof.
  intros Hds E.
  assert (H : all_chars Text.is_digit (typed_number ds) = true).
  { unfold typed_number. apply lstrip_zeros_digits.
    change ("0" ++ typed_text ds) with (String "0" (typed_text ds)).
    cbn. now apply typed_text_digits. }
  rewrite E in H. discriminate H.
Qed.

(** The state that digit keys leave when typed on the text ["0"]. *)
Lemma typed_state (ds : list string) (s : calc) :
  digit_keys ds -> fresh_number s = false -> current s = "0" ->
  Quiz04.press ds s =
    mk_calc (acc s) (typed_number ds) (pending_op s) (just_evaluated s)
            (match ds with [] => display s | _ => typed_number ds end).
Proof.
  intros Hds Hf Hc.
  destruct (typing04_frame ds s Hds Hf) as (Ha & Hp & Hj & Hd).
  assert (Ht : current (Quiz04.press ds s) = typed_number ds).
  { unfold typed_number. rewrite (typing04 ds s Hds); rewrite ?Hc; auto.
    discriminate. }
  rewrite (calc_eta (Quiz04.press ds s)), Ha, Hp, Hj, Ht.
  destruct ds as [|d ds]; [reflexivity|].
  rewrite Hd by discriminate. now rewrite Ht.
Qed.

Lemma on_button04_operator (op : string) (s : calc) :
  In op [PLUS; MINUS; TIMES; DIVIDE] ->
  Quiz04.on_button op s = Quiz04._press_operator op s /\
  is_operator op = true.
Proof.
  intro H. cbn in H.
  repeat (destruct H as [<- | H]; [split; reflexivity|]). contradiction.
Qed.

Lemma press_operator04_fold (s : calc) (p op : string) :
  pending_op s = Some p -> is_operator p = true -> current s <> "Error" ->
  divides_by_zero p (Quiz04._current_value s) = false ->
  Quiz04._press_operator op s =
    (let res := binop p (acc s) (Quiz04._current_value s) in
     mk_calc res "0" (Some op) false (PyFloat.format_12g res)).
Proof.
  intros Hp Hop He Hz. unfold Quiz04._press_operator.
  now rewrite (eqb_Error_false _ He), Hp, (apply_pending04_ok s p Hp Hop Hz).
Qed.

Lemma chain_keys_cons (op : string) (ds : list string)
    (steps : list (string * list string)) (rest : list string) :
  (chain_keys ((op, ds) :: steps) ++ rest)%list =
  op :: (ds ++ (chain_keys steps ++ rest))%list.
Proof. unfold chain_keys. cbn. now rewrite <- app_assoc. Qed.

(** From the state reached after [... op digits], the rest of a chain and
    Evaluate. *)
Lemma chain_run (steps : list (string * list string)) :
  well_keyed steps ->
  forall (v : float) (op : string) (ds : list string) (dsp : string),
  is_operator op = true -> digit_keys ds ->
  divides_by_zero op (operand ds) = false ->
  chain_defined (binop op v (operand ds)) steps = true ->
  Quiz04.press (chain_keys steps ++ ["="])
    (mk_calc v (typed_number ds) (Some op) false dsp) =
  (let r := chain_value (binop op v (operand ds)) steps in
   mk_calc r (PyFloat.format_12g r) None true (PyFloat.format_12g r)).
Proof.
  induction 1 as [|[op' ds'] steps [Hop' Hds'] Hsteps IH];
    intros v op ds dsp Hop Hds Hz Hdef.
  - set (s := mk_calc v (typed_number ds) (Some op) false dsp).
    assert (He : current s <> "Error")
      by exact (typed_number_not_marker ds Hds).
    change (Quiz04.press (chain_keys [] ++ ["="]) s) with (Quiz04.equal s).
    unfold Quiz04.equal. rewrite (eqb_Error_false _ He).
    change (pending_op s) with (Some op).
    rewrite (apply_pending04_ok s op eq_refl Hop Hz). reflexivity.
  - cbn [fst snd] in *.
    set (s := mk_calc v (typed_number ds) (Some op) false dsp).
    cbn [chain_defined] in Hdef. apply andb_prop in Hdef as [Hz' Hdef].
    apply negb_true_iff in Hz'.
    rewrite chain_keys_cons.
    change (Quiz04.press (op' :: (ds' ++ (chain_keys steps ++ ["="]))%list) s)
      with (Quiz04.press ((ds' ++ (chain_keys steps ++ ["="]))%list)
              (Quiz04.on_button op' s)).
    destruct (on_button04_operator op' s Hop') as [-> Hop1].
    assert (He : current s <> "Error")
      by exact (typed_number_not_marker ds Hds).
    rewrite (press_operator04_fold s op op' eq_refl Hop He Hz).
    cbv zeta. rewrite press04_app.
    rewrite (typed_state ds' (mk_calc _ "0" (Some op') false _) Hds'
               eq_refl eq_refl).
    cbn [acc pending_op just_evaluated display].
    apply (IH _ op' ds' _ Hop1 Hds' Hz' Hdef).
Qed.

(** X18: a chain [n0 op1 n1 op2 n2 ... =] typed on a new calculator shows
    the left-to-right fold [((n0 op1 n1) op2 n2) ...] of its operands, of
    whatever length and with whatever operators, provided no step divides by
    zero; an operator key not followed by digits takes the operand 0.  The
    engine ends with no pending operator and justEvaluated set. *)
Theorem X18_chains_fold_left (ds0 : list string)
    (steps : list (string * list string)) :
  digit_keys ds0 ->
  well_keyed steps ->
  chain_defined (operand ds0) steps = true ->
  let s := Quiz04.press (ds0 ++ chain_keys steps ++ ["="]) Quiz04.__init__ in
  let r := chain_value (operand ds0) steps in
  current s = PyFloat.format_12g r /\
  display s = PyFloat.format_12g r /\
  pending_op s = None /\ just_evaluated s = true /\
  (steps <> [] -> acc s = r).
Proof.
  intros Hds0 Hsteps Hdef s r. unfold s. clear s.
  rewrite press04_app.
  set (s0 := mk_calc 0 (typed_number ds0) None false
               (match ds0 with [] => "0" | _ => typed_number ds0 end)).
  assert (E : Quiz04.press ds0 Quiz04.__init__ = s0)
    by exact (typed_state ds0 Quiz04.__init__ Hds0 eq_refl eq_refl).
  rewrite E. clear E.
  assert (He0 : current s0 <> "Error")
    by exact (typed_number_not_marker ds0 Hds0).
  destruct steps as [|[op ds] steps].
  - change (Quiz04.press (chain_keys [] ++ ["="]) s0) with (Quiz04.equal s0).
    unfold Quiz04.equal. rewrite (eqb_Error_false _ He0).
    repeat split. intro H. contradiction.
  - inversion Hsteps as [|? ? [Hop Hds] Hrest]; subst. cbn [fst snd] in *.
    cbn [chain_defined] in Hdef. apply andb_prop in Hdef as [Hz Hdef].
    apply negb_true_iff in Hz.
    rewrite chain_keys_cons.
    change (Quiz04.press (op :: (ds ++ (chain_keys steps ++ ["="]))%list) s0)
      with (Quiz04.press ((ds ++ (chain_keys steps ++ ["="]))%list)
              (Quiz04.on_button op s0)).
    destruct (on_button04_operator op s0 Hop) as [-> Hop1].
    rewrite (press_operator04_first op s0 eq_refl He0).
    rewrite press04_app.
    rewrite (typed_state ds (mk_calc _ "0" (Some op) false _) Hds
               eq_refl eq_refl).
    cbn [acc pending_op just_evaluated display].
    change (Quiz04._current_value s0) with (operand ds0).
    rewrite (chain_run steps Hrest _ op ds _ Hop1 Hds Hz Hdef).
    repeat split.
Qed.

Lemma X18_witness :
  let steps := [(PLUS, ["3"]); (TIMES, ["4"]); (MINUS, ["1"; "0"]); (DIVIDE, ["5"])] in
  (digit_keys ["2"] /\ well_keyed steps /\
   chain_defined (operand ["2"]) steps = true) /\
  chain_keys steps = ["+"; "3"; "×"; "4"; "−"; "1"; "0"; "÷"; "5"] /\
  display (Quiz04.press (["2"] ++ chain_keys steps ++ ["="]) Quiz04.__init__)
    = "2".
Proof.
  intro steps.
  assert (H0 : digit_keys ["2"]) by pressed.
  assert (H1 : well_keyed steps).
  { repeat (apply Forall_cons; [split; [cbn; tauto | pressed]|]).
    apply Forall_nil. }
  assert (H2 : chain_defined (operand ["2"]) steps = true) by reflexivity.
  split; [repeat split; assumption|]. split; [reflexivity|].
  destruct (X18_chains_fold_left ["2"] steps H0 H1 H2) as (_ & H & _).
  rewrite H. reflexivity.
Defined.
